(* ===================================================================== *)
(*  slatron / utility/export_snac_onnx.py                                *)
(*                                                                       *)
(*  A shallow embedding of the SNAC -> ONNX export script and the        *)
(*  properties of it that the specification records.                     *)
(*                                                                       *)
(*  The script is glue over two third-party libraries (snac and torch).  *)
(*  Their entry points are taken as an environment [Env]; the script's   *)
(*  own statements are written in a state-and-exception monad over the   *)
(*  process state, in the order of the source.                           *)
(* ===================================================================== *)

From Stdlib Require Import ZArith List String Bool Lia.
From stdpp Require Import base option list gmap strings fin_maps.

Local Open Scope string_scope.
Local Open Scope list_scope.
Local Open Scope Z_scope.

(* --------------------------------------------------------------------- *)
(** * Python values                                                       *)
(* --------------------------------------------------------------------- *)

(** Exception classes. [except ImportError] catches [ImportError] and its
    subclass [ModuleNotFoundError]; [SystemExit] is not an [Exception]. *)
Inductive ExnClass : Type :=
  | ImportError
  | ModuleNotFoundError
  | RuntimeError
  | OSError
  | ValueError
  | OtherException (name : string).

Inductive PyExn : Type :=
  | SystemExit (code : Z)
  | Exn (cls : ExnClass) (msg : string).

Definition is_ImportError (e : PyExn) : bool :=
  match e with
  | Exn ImportError _ | Exn ModuleNotFoundError _ => true
  | _ => false
  end.

(** An error in the sense of the specification: an [Exception], not the
    interpreter-exit request. *)
Definition is_error (e : PyExn) : bool :=
  match e with
  | SystemExit _ => false
  | Exn _ _ => true
  end.

Inductive Outcome (A : Type) : Type :=
  | Return (a : A)
  | Raise (e : PyExn).
Arguments Return {A} a.
Arguments Raise {A} e.

(** torch dtypes: the one the script uses, and two it could confuse it with. *)
Inductive dtype : Type := int32 | int64 | float32.

(** An integer tensor: dtype, shape and the elements in row-major order. *)
Record Tensor : Type := mkTensor {
  t_dtype : dtype;
  t_shape : list Z;
  t_data  : list Z
}.

(** Shape [B, T]: axis 0 is the batch, axis 1 the time length. *)
Definition batch_size (t : Tensor) : option Z := t_shape t !! 0%nat.
Definition time_length (t : Tensor) : option Z := t_shape t !! 1%nat.

Definition numel (size : list Z) : Z := fold_right Z.mul 1 size.

(* --------------------------------------------------------------------- *)
(** * Process state                                                       *)
(* --------------------------------------------------------------------- *)

Inductive Stream : Type := Stdout | Stderr.

(** What the outside can observe of the process, and torch's global state:
    the lines written to the two standard streams, the file system, the
    state of torch's default random generator and the autograd mode. *)
Record World : Type := mkWorld {
  stdout : list string;
  stderr : list string;
  fs : gmap string string;
  rng : Z;
  grad_enabled : bool
}.

Definition write_line (st : Stream) (line : string) (w : World) : World :=
  match st with
  | Stdout => mkWorld (stdout w ++ [line]) (stderr w) (fs w) (rng w) (grad_enabled w)
  | Stderr => mkWorld (stdout w) (stderr w ++ [line]) (fs w) (rng w) (grad_enabled w)
  end.

Definition set_rng (g : Z) (w : World) : World :=
  mkWorld (stdout w) (stderr w) (fs w) g (grad_enabled w).

Section Script.

(** The decoder's output (a float waveform tensor) and the pretrained
    parameters are opaque to the script. *)
Context {Audio Weights : Type}.

(** A [torch.nn.Module] holding the pretrained codec. *)
Record Model : Type := mkModel {
  training : bool;
  device : string;
  weights : Weights
}.

(** [class SnacWrapper(torch.nn.Module)]: [__init__] stores the model. *)
Record SnacWrapper : Type := mkSnacWrapper {
  model : Model
}.

(** The keyword and positional arguments of one [torch.onnx.export] call. *)
Record ExportCall : Type := mkExportCall {
  ex_model : SnacWrapper;
  ex_args : list Tensor;
  ex_f : string;
  ex_input_names : list string;
  ex_output_names : list string;
  ex_dynamic_axes : gmap string (gmap Z string);
  ex_opset_version : Z
}.

(** The statements the script executes that reach outside of it.  The
    export call records the autograd mode in force when it is issued. *)
Inductive Event : Type :=
  | EvImport (module : string)
  | EvPrint (st : Stream) (line : string)
  | EvExit (code : Z)
  | EvFromPretrained (repo : string)
  | EvTo (m : Model) (dev : string)
  | EvEval (m : Model)
  | EvRandint (low high : Z) (size : list Z) (dt : dtype)
  | EvExport (c : ExportCall) (grad : bool).

(** A log entry: the statement and the exception it raised, if any. *)
Definition Entry : Type := Event * option PyExn.

Record State : Type := mkState {
  world : World;
  log : list Entry
}.

Definition init (w : World) : State := mkState w [].

(** The third-party code the script calls.  Library calls may have any
    effect on the world and may raise. *)
Record Env : Type := mkEnv {
  (** [from snac import SNAC]: succeeds or raises. *)
  import_snac : Outcome unit;
  (** [SNAC.from_pretrained(repo)] *)
  from_pretrained : string -> World -> Outcome Model * World;
  (** [model.decode(codes)] *)
  decode : Model -> list Tensor -> Outcome Audio;
  (** [module.to(device)] *)
  module_to : Model -> string -> World -> Outcome Model * World;
  (** [torch.onnx.export(...)] *)
  onnx_export : ExportCall -> World -> Outcome unit * World;
  (** one raw draw of torch's default generator: (value, next state) *)
  rng_next : Z -> Z * Z;
  (** the interpreter's report of an uncaught exception *)
  traceback : PyExn -> list string
}.

(* ------------------------------------------------------------------- *)
(** ** The monad of script statements                                   *)
(* ------------------------------------------------------------------- *)

Definition M (A : Type) : Type := State -> Outcome A * State.

#[global] Instance M_ret : MRet M := fun A a s => (Return a, s).

#[global] Instance M_bind : MBind M := fun A B k c s =>
  match c s with
  | (Return a, s') => k a s'
  | (Raise e, s') => (Raise e, s')
  end.

(** [try: c  except <cls>: h], with [handles] the class test. *)
Definition try_except {A} (c : M A) (handles : PyExn -> bool) (h : M A) : M A :=
  fun s =>
    match c s with
    | (Return a, s') => (Return a, s')
    | (Raise e, s') => if handles e then h s' else (Raise e, s')
    end.

Definition raised {A} (r : Outcome A) : option PyExn :=
  match r with
  | Return _ => None
  | Raise e => Some e
  end.

(** A statement that reaches outside: it acts on the world, and the log
    gets the statement and what it raised. *)
Definition call {A} (ev : Event) (f : World -> Outcome A * World) : M A :=
  fun s =>
    let r := f (world s) in
    (r.1, mkState r.2 (log s ++ [(ev, raised r.1)])).

(** [print(line, file=st)] *)
Definition print (st : Stream) (line : string) : M unit :=
  call (EvPrint st line) (fun w => (Return tt, write_line st line w)).

(** [sys.exit(code)] raises [SystemExit]. *)
Definition sys_exit {A} (code : Z) : M A :=
  call (EvExit code) (fun w => (Raise (SystemExit code), w)).

Variable E : Env.

(** [from snac import SNAC] *)
Definition import_SNAC : M unit :=
  call (EvImport "snac") (fun w => (import_snac E, w)).

(** [SNAC.from_pretrained(repo)] *)
Definition SNAC_from_pretrained (repo : string) : M Model :=
  call (EvFromPretrained repo) (from_pretrained E repo).

(** [m.to(dev)] *)
Definition to (m : Model) (dev : string) : M Model :=
  call (EvTo m dev) (module_to E m dev).

(** [nn.Module.eval()]: sets [training = False] on the module, in place.
    The script calls it before the wrapper takes its reference, so the
    updated value is what the wrapper holds. *)
Definition eval (m : Model) : M Model :=
  call (EvEval m) (fun w => (Return (mkModel false (device m) (weights m)), w)).

(** [n] raw draws from the generator. *)
Fixpoint draws (n : nat) (g : Z) : list Z * Z :=
  match n with
  | O => ([], g)
  | S n' =>
      let d := rng_next E g in
      let ds := draws n' d.2 in
      (d.1 :: ds.1, ds.2)
  end.

(** The tensor [torch.randint] builds from generator state [g]: elements
    in [low, high), in the given shape; and the generator state it
    leaves. *)
Definition randint_tensor (low high : Z) (size : list Z) (dt : dtype) (g : Z) : Tensor :=
  mkTensor dt size
    (map (fun r => low + r mod (high - low)) (draws (Z.to_nat (numel size)) g).1).

Definition randint_next (size : list Z) (g : Z) : Z :=
  (draws (Z.to_nat (numel size)) g).2.

(** [torch.randint(low, high, size, dtype=dt)]; raises when the range is
    empty or a dimension is negative. *)
Definition randint (low high : Z) (size : list Z) (dt : dtype) : M Tensor :=
  call (EvRandint low high size dt) (fun w =>
    if (low <? high) && forallb (Z.leb 0) size then
      (Return (randint_tensor low high size dt (rng w)),
       set_rng (randint_next size (rng w)) w)
    else
      (Raise (Exn RuntimeError "randint: invalid range or size"), w)).

(** [torch.onnx.export(...)] *)
Definition torch_onnx_export (c : ExportCall) : M unit :=
  fun s => call (EvExport c (grad_enabled (world s))) (onnx_export E c) s.

(* ------------------------------------------------------------------- *)
(** ** The script                                                       *)
(* ------------------------------------------------------------------- *)

(** [SnacWrapper.__init__] *)
Definition SnacWrapper_init (m : Model) : SnacWrapper := mkSnacWrapper m.

(** [SnacWrapper.forward] *)
Definition forward (self : SnacWrapper) (c0 c1 c2 : Tensor) : Outcome Audio :=
  let codes := [c0; c1; c2] in
  decode E (model self) codes.

(** [export_model(output_path)] *)
Definition export_model (output_path : string) : M unit :=
  let device := "cpu" in
  print Stdout "Loading SNAC model...";;
  model ← SNAC_from_pretrained "hubertsiuzdak/snac_24khz";
  model ← to model device;
  model ← eval model;
  let wrapper := SnacWrapper_init model in
  dummy_c0 ← randint 0 1024 [1; 10] int32;
  dummy_c1 ← randint 0 1024 [1; 20] int32;
  dummy_c2 ← randint 0 1024 [1; 40] int32;
  print Stdout ("Exporting to " +:+ output_path +:+ "...");;
  torch_onnx_export
    {| ex_model := wrapper;
       ex_args := [dummy_c0; dummy_c1; dummy_c2];
       ex_f := output_path;
       ex_input_names := ["codes_0"; "codes_1"; "codes_2"];
       ex_output_names := ["audio"];
       ex_dynamic_axes :=
         {[ "codes_0" := {[ 0 := "batch"; 1 := "time" ]};
            "codes_1" := {[ 0 := "batch"; 1 := "time" ]};
            "codes_2" := {[ 0 := "batch"; 1 := "time" ]};
            "audio" := {[ 0 := "batch"; 2 := "time" ]} ]};
       ex_opset_version := 18 |};;
  print Stdout "Export complete.".

Definition missing_snac_message : string :=
  "Error: 'snac' library not found. Please install it or run this in the orpheus-tts-local environment.".

(** The module body, run as [__main__]: the guarded import, then (the
    class and function definitions having no effect of their own)
    [export_model()] with its default path.  torch itself is taken to be
    installed. *)
Definition script : M unit :=
  try_except import_SNAC is_ImportError
    (print Stderr missing_snac_message;;
     sys_exit 1);;
  export_model "snac.onnx".

(** The interpreter around the script: the exit status and the final
    state.  [SystemExit(n)] ends the process with status [n] (low eight
    bits) and prints nothing; any other uncaught exception is reported on
    standard error and ends it with status 1. *)
Definition run_process (w : World) : Z * State :=
  match script (init w) with
  | (Return _, s) => (0, s)
  | (Raise (SystemExit c), s) => (Z.land c 255, s)
  | (Raise e, s) =>
      (1, mkState (fold_left (fun w l => write_line Stderr l w) (traceback E e) (world s))
                  (log s))
  end.

End Script.

Arguments Model : clear implicits.
Arguments SnacWrapper : clear implicits.
Arguments ExportCall : clear implicits.
Arguments Event : clear implicits.
Arguments Entry : clear implicits.
Arguments State : clear implicits.
Arguments Env : clear implicits.

(* --------------------------------------------------------------------- *)
(** * Reading a log                                                       *)
(* --------------------------------------------------------------------- *)

(** The [torch.onnx.export] calls of a log, each with the autograd mode it
    was issued under. *)
Definition export_calls {Weights} (l : list (Entry Weights))
  : list (ExportCall Weights * bool) :=
  omap (fun en => match en.1 with EvExport c g => Some (c, g) | _ => None end) l.

Definition load_calls {Weights} (l : list (Entry Weights)) : list string :=
  omap (fun en => match en.1 with EvFromPretrained r => Some r | _ => None end) l.

(** The lines the script printed on a stream, in order. *)
Definition printed {Weights} (st : Stream) (l : list (Entry Weights)) : list string :=
  omap (fun en =>
          match en.1, st with
          | EvPrint Stdout line, Stdout | EvPrint Stderr line, Stderr => Some line
          | _, _ => None
          end) l.

(** A statement that calls into snac or torch to load or export. *)
Definition is_library_call {Weights} (ev : Event Weights) : bool :=
  match ev with
  | EvFromPretrained _ | EvTo _ _ | EvExport _ _ => true
  | _ => false
  end.

(** The 1:2:4 relation between the time lengths of three code tensors. *)
Definition ratio_1_2_4 (c0 c1 c2 : Tensor) : bool :=
  match time_length c0, time_length c1, time_length c2 with
  | Some a, Some b, Some c => (b =? 2 * a) && (c =? 4 * a)
  | _, _, _ => false
  end.

Definition in_vocabulary (t : Tensor) : Prop :=
  Forall (fun x => 0 <= x <= 1023) (t_data t).

(** What the export call is specified to declare. *)
Definition declares_names_and_axes {Weights} (c : ExportCall Weights) : Prop :=
  ex_input_names c = ["codes_0"; "codes_1"; "codes_2"] /\
  ex_output_names c = ["audio"] /\
  (forall n, In n (ex_input_names c) ->
             ex_dynamic_axes c !! n = Some ({[ 0 := "batch"; 1 := "time" ]} : gmap Z string)) /\
  (forall n, In n (ex_output_names c) ->
             ex_dynamic_axes c !! n = Some ({[ 0 := "batch"; 2 := "time" ]} : gmap Z string)) /\
  (forall n, is_Some (ex_dynamic_axes c !! n) ->
             In n (ex_input_names c ++ ex_output_names c)) /\
  ex_opset_version c = 18.

(* --------------------------------------------------------------------- *)
(** * The runs of [export_model]                                          *)
(* --------------------------------------------------------------------- *)

Section Runs.

Context {Audio Weights : Type}.
Variable E : Env Audio Weights.

(** The three tensors drawn in a row from generator state [g], and the
    state the third draw leaves. *)
Definition traced_inputs (g : Z) : list Tensor :=
  let g1 := randint_next E [1; 10] g in
  let g2 := randint_next E [1; 20] g1 in
  [randint_tensor E 0 1024 [1; 10] int32 g;
   randint_tensor E 0 1024 [1; 20] int32 g1;
   randint_tensor E 0 1024 [1; 40] int32 g2].

Definition rng_after_inputs (g : Z) : Z :=
  randint_next E [1; 40] (randint_next E [1; 20] (randint_next E [1; 10] g)).

(** The export call issued for the loaded model [m] (as [to] returned it)
    when the generator is in state [g]. *)
Definition traced_call (out : string) (m : Model Weights) (g : Z) : ExportCall Weights :=
  {| ex_model := SnacWrapper_init (mkModel false (device m) (weights m));
     ex_args := traced_inputs g;
     ex_f := out;
     ex_input_names := ["codes_0"; "codes_1"; "codes_2"];
     ex_output_names := ["audio"];
     ex_dynamic_axes :=
       {[ "codes_0" := {[ 0 := "batch"; 1 := "time" ]};
          "codes_1" := {[ 0 := "batch"; 1 := "time" ]};
          "codes_2" := {[ 0 := "batch"; 1 := "time" ]};
          "audio" := {[ 0 := "batch"; 2 := "time" ]} ]};
     ex_opset_version := 18 |}.

(** The world the export call starts in, from the world [w2] that the
    loading calls left. *)
Definition world_at_export (out : string) (w2 : World) : World :=
  mkWorld (stdout w2 ++ ["Exporting to " +:+ out +:+ "..."]) (stderr w2) (fs w2)
          (rng_after_inputs (rng w2)) (grad_enabled w2).

Definition log_loaded (m0 m1 : Model Weights) : list (Entry Weights) :=
  [(EvPrint Stdout "Loading SNAC model...", None);
   (EvFromPretrained "hubertsiuzdak/snac_24khz", None);
   (EvTo m0 "cpu", None);
   (EvEval m1, None)].

Definition log_prepared (out : string) : list (Entry Weights) :=
  [(EvRandint 0 1024 [1; 10] int32, None);
   (EvRandint 0 1024 [1; 20] int32, None);
   (EvRandint 0 1024 [1; 40] int32, None);
   (EvPrint Stdout ("Exporting to " +:+ out +:+ "..."), None)].

(** The four ways a run of [export_model out] from state [s] can go: the
    model cannot be fetched, it cannot be moved to the device, the export
    call raises, or everything succeeds. *)
Inductive ExportRun (out : string) (s : State Weights)
  : Outcome unit * State Weights -> Prop :=
  | run_fetch_fails e w1 :
      from_pretrained E "hubertsiuzdak/snac_24khz"
        (write_line Stdout "Loading SNAC model..." (world s)) = (Raise e, w1) ->
      ExportRun out s
        (Raise e,
         mkState w1
           (log s ++
            [(EvPrint Stdout "Loading SNAC model...", None);
             (EvFromPretrained "hubertsiuzdak/snac_24khz", Some e)]))
  | run_to_fails m0 w1 e w2 :
      from_pretrained E "hubertsiuzdak/snac_24khz"
        (write_line Stdout "Loading SNAC model..." (world s)) = (Return m0, w1) ->
      module_to E m0 "cpu" w1 = (Raise e, w2) ->
      ExportRun out s
        (Raise e,
         mkState w2
           (log s ++
            [(EvPrint Stdout "Loading SNAC model...", None);
             (EvFromPretrained "hubertsiuzdak/snac_24khz", None);
             (EvTo m0 "cpu", Some e)]))
  | run_export_fails m0 w1 m1 w2 e w4 :
      from_pretrained E "hubertsiuzdak/snac_24khz"
        (write_line Stdout "Loading SNAC model..." (world s)) = (Return m0, w1) ->
      module_to E m0 "cpu" w1 = (Return m1, w2) ->
      onnx_export E (traced_call out m1 (rng w2)) (world_at_export out w2)
        = (Raise e, w4) ->
      ExportRun out s
        (Raise e,
         mkState w4
           (log s ++ log_loaded m0 m1 ++ log_prepared out ++
            [(EvExport (traced_call out m1 (rng w2)) (grad_enabled w2), Some e)]))
  | run_complete m0 w1 m1 w2 w4 :
      from_pretrained E "hubertsiuzdak/snac_24khz"
        (write_line Stdout "Loading SNAC model..." (world s)) = (Return m0, w1) ->
      module_to E m0 "cpu" w1 = (Return m1, w2) ->
      onnx_export E (traced_call out m1 (rng w2)) (world_at_export out w2)
        = (Return tt, w4) ->
      ExportRun out s
        (Return tt,
         mkState (write_line Stdout "Export complete." w4)
           (log s ++ log_loaded m0 m1 ++ log_prepared out ++
            [(EvExport (traced_call out m1 (rng w2)) (grad_enabled w2), None);
             (EvPrint Stdout "Export complete.", None)])).

End Runs.

(* --------------------------------------------------------------------- *)
(** * Sample environments                                                 *)
(* --------------------------------------------------------------------- *)

Module Demo.

(** A linear congruential generator standing in for torch's. *)
Definition lcg (g : Z) : Z * Z :=
  (g / 65536, (g * 1103515245 + 12345) mod 2147483648).

Definition write_file (path data : string) (w : World) : World :=
  mkWorld (stdout w) (stderr w) (<[path := data]> (fs w)) (rng w) (grad_enabled w).

Definition report (e : PyExn) : list string :=
  ["Traceback (most recent call last):";
   match e with
   | Exn _ msg => msg
   | SystemExit _ => "SystemExit"
   end].

(** Everything is installed and works: the decoder comes back in training
    mode, as a freshly built module is, and the exporter writes the file. *)
Definition env : Env (list Z) Z :=
  {| import_snac := Return tt;
     from_pretrained := fun repo w => (Return (mkModel true "cpu" 24000), w);
     decode := fun m codes => Return (concat (map t_data codes));
     module_to := fun m dev w => (Return (mkModel (training m) dev (weights m)), w);
     onnx_export := fun c w => (Return tt, write_file (ex_f c) "onnx" w);
     rng_next := lcg;
     traceback := report |}.

(** snac is not installed. *)
Definition env_no_snac : Env (list Z) Z :=
  {| import_snac := Raise (Exn ModuleNotFoundError "No module named 'snac'");
     from_pretrained := from_pretrained env;
     decode := decode env;
     module_to := module_to env;
     onnx_export := onnx_export env;
     rng_next := lcg;
     traceback := report |}.

(** The exporter rejects the graph, leaving a truncated file behind. *)
Definition env_export_fails : Env (list Z) Z :=
  {| import_snac := Return tt;
     from_pretrained := from_pretrained env;
     decode := decode env;
     module_to := module_to env;
     onnx_export := fun c w =>
       (Raise (Exn RuntimeError "Unsupported ONNX opset version"),
        write_file (ex_f c) "" w);
     rng_next := lcg;
     traceback := report |}.

(** A fresh process: nothing printed, an empty directory, autograd on. *)
Definition w0 : World := mkWorld [] [] ∅ 42 true.
Definition w1 : World := mkWorld [] [] ∅ 7 true.

(** The export call of a run of [env] from [w0], resp. [w1]. *)
Definition call0 : ExportCall Z :=
  traced_call env "snac.onnx" (mkModel true "cpu" 24000) 42.
Definition call1 : ExportCall Z :=
  traced_call env "snac.onnx" (mkModel true "cpu" 24000) 7.

(** snac is installed but its import breaks on a missing shared library,
    which is an OSError and not an ImportError. *)
Definition env_broken_snac : Env (list Z) Z :=
  {| import_snac := Raise (Exn OSError "libsndfile.so: cannot open shared object file");
     from_pretrained := from_pretrained env;
     decode := decode env;
     module_to := module_to env;
     onnx_export := onnx_export env;
     rng_next := lcg;
     traceback := report |}.

(** No network: the weights cannot be fetched.  None of the library calls
    touches the world. *)
Definition env_offline : Env (list Z) Z :=
  {| import_snac := Return tt;
     from_pretrained := fun repo w =>
       (Raise (Exn OSError "Network is unreachable"), w);
     decode := decode env;
     module_to := module_to env;
     onnx_export := fun c w => (Return tt, w);
     rng_next := lcg;
     traceback := report |}.

(** Code tensors of lengths 3, 5 and 4: not in ratio 1:2:4. *)
Definition odd0 : Tensor := mkTensor int32 [1; 3] [5; 6; 7].
Definition odd1 : Tensor := mkTensor int32 [1; 5] [1; 2; 3; 4; 5].
Definition odd2 : Tensor := mkTensor int32 [1; 4] [9; 9; 9; 9].

End Demo.


(** A library call on which a run of [export_model out] from world [w]
    fails: the exception it raises and the world it leaves. *)
Inductive LibraryFailure {Audio Weights} (E : Env Audio Weights) (out : string) (w : World)
  : PyExn -> World -> Prop :=
  | fetch_raises e w1 :
      from_pretrained E "hubertsiuzdak/snac_24khz"
        (write_line Stdout "Loading SNAC model..." w) = (Raise e, w1) ->
      LibraryFailure E out w e w1
  | to_raises m0 w1 e w2 :
      from_pretrained E "hubertsiuzdak/snac_24khz"
        (write_line Stdout "Loading SNAC model..." w) = (Return m0, w1) ->
      module_to E m0 "cpu" w1 = (Raise e, w2) ->
      LibraryFailure E out w e w2
  | export_raises m0 w1 m1 w2 e w4 :
      from_pretrained E "hubertsiuzdak/snac_24khz"
        (write_line Stdout "Loading SNAC model..." w) = (Return m0, w1) ->
      module_to E m0 "cpu" w1 = (Return m1, w2) ->
      onnx_export E (traced_call E out m1 (rng w2)) (world_at_export E out w2)
        = (Raise e, w4) ->
      LibraryFailure E out w e w4.

(** The reading of "materialized in inference mode" that asks for both
    evaluation mode and autograd switched off at every export call. *)
Definition export_in_inference_mode {Audio Weights} (E : Env Audio Weights)
    (out : string) (w : World) : Prop :=
  forall c g r,
    In (EvExport c g, r) (log (export_model E out (init w)).2) ->
    training (model (ex_model c)) = false /\ g = false.

(** A run of [export_model out] from world [w] in which every library call
    returns; [w4] is the world the export call leaves. *)
Inductive LibrarySuccess {Audio Weights} (E : Env Audio Weights) (out : string) (w : World)
  : World -> Prop :=
  | all_return m0 w1 m1 w2 w4 :
      from_pretrained E "hubertsiuzdak/snac_24khz"
        (write_line Stdout "Loading SNAC model..." w) = (Return m0, w1) ->
      module_to E m0 "cpu" w1 = (Return m1, w2) ->
      onnx_export E (traced_call E out m1 (rng w2)) (world_at_export E out w2)
        = (Return tt, w4) ->
      LibrarySuccess E out w w4.

(** The statements that load the model. *)
Definition is_load_call {Weights} (ev : Event Weights) : bool :=
  match ev with
  | EvFromPretrained _ | EvTo _ _ => true
  | _ => false
  end.

(** A library function leaves the part [p] of the world as it found it. *)
Definition preserves {A B} (p : World -> B) (f : World -> Outcome A * World) : Prop :=
  forall w, p (f w).2 = p w.

(** All three library calls that act on the world leave [p] alone. *)
Definition libraries_preserve {Audio Weights B} (p : World -> B)
    (E : Env Audio Weights) : Prop :=
  (forall repo, preserves p (from_pretrained E repo)) /\
  (forall m dev, preserves p (module_to E m dev)) /\
  (forall c, preserves p (onnx_export E c)).

(** The kinds of statement [export_model] executes: it prints on standard
    output only, and neither imports nor exits. *)
Definition export_model_statement {Weights} (ev : Event Weights) : bool :=
  match ev with
  | EvPrint Stdout _ | EvFromPretrained _ | EvTo _ _ | EvEval _
  | EvRandint _ _ _ _ | EvExport _ _ => true
  | EvPrint Stderr _ | EvImport _ | EvExit _ => false
  end.

(** The generator seen from outside, through [rng_next] alone: its state
    after [k] draws from state [g], and the value of the draw made then. *)
Definition generator_state {Audio Weights} (E : Env Audio Weights) (k : nat) (g : Z) : Z :=
  Nat.iter k (fun s => (rng_next E s).2) g.

Definition generator_output {Audio Weights} (E : Env Audio Weights) (k : nat) (g : Z) : Z :=
  (rng_next E (generator_state E k g)).1.

(** Draws number [start], ..., [start + len - 1] of the generator started
    in state [g], each brought into the vocabulary [0, 1024). *)
Definition vocabulary_draws {Audio Weights} (E : Env Audio Weights) (g : Z)
    (start len : nat) : list Z :=
  map (fun k => generator_output E k g mod 1024) (seq start len).

(* --------------------------------------------------------------------- *)
(** * Stepping through statements                                         *)
(* --------------------------------------------------------------------- *)

Section Steps.

Context {Audio Weights : Type}.
Variable E : Env Audio Weights.


Lemma bind_run {A B} (c : M A) (k : A -> M B) (s : State Weights) :
  (c ≫= k) s =
  match c s with
  | (Return a, s') => k a s'
  | (Raise e, s') => (Raise e, s')
  end.
Proof. reflexivity. Qed.

Lemma call_run {A} ev (f : World -> Outcome A * World) (s : State Weights) :
  call ev f s =
  ((f (world s)).1,
   mkState (f (world s)).2 (log s ++ [(ev, raised (f (world s)).1)])).
Proof. reflexivity. Qed.

Lemma print_run st line (s : State Weights) :
  print st line s =
  (Return tt,
   mkState (write_line st line (world s)) (log s ++ [(EvPrint st line, None)])).
Proof. reflexivity. Qed.

Lemma randint_run low high size dt (s : State Weights) :
  (low <? high) && forallb (Z.leb 0) size = true ->
  randint E low high size dt s =
  (Return (randint_tensor E low high size dt (rng (world s))),
   mkState (set_rng (randint_next E size (rng (world s))) (world s))
           (log s ++ [(EvRandint low high size dt, None)])).
Proof. intros H. unfold randint. rewrite call_run, H. reflexivity. Qed.

(** Every run of [export_model] is one of the four. *)
Lemma export_model_run out s : ExportRun E out s (export_model E out s).
Proof.
  unfold export_model.
  rewrite bind_run, print_run.
  rewrite bind_run; unfold SNAC_from_pretrained; rewrite call_run.
  cbn [world log].
  destruct (from_pretrained E _ _) as [[m0|e] w1] eqn:Hload; cbn [fst snd raised].
  2: { rewrite <- app_assoc. apply (run_fetch_fails E _ _ _ _ Hload). }
  rewrite bind_run; unfold to; rewrite call_run; cbn [world log].
  destruct (module_to E _ _ _) as [[m1|e] w2] eqn:Hto; cbn [fst snd raised].
  2: { rewrite <- !app_assoc. apply (run_to_fails E _ _ _ _ _ _ Hload Hto). }
  rewrite bind_run; unfold eval; rewrite call_run; cbn [world log fst snd raised].
  rewrite bind_run, randint_run by reflexivity.
  rewrite bind_run, randint_run by reflexivity.
  rewrite bind_run, randint_run by reflexivity.
  rewrite bind_run, print_run.
  rewrite bind_run; unfold torch_onnx_export; rewrite call_run.
  cbn [world log set_rng write_line rng stdout stderr fs grad_enabled].
  destruct (onnx_export E _ _) as [[[]|e] w4] eqn:Hex; cbn [fst snd raised].
  - rewrite print_run. cbn [world log].
    rewrite <- !app_assoc. exact (run_complete E out s m0 w1 m1 w2 w4 Hload Hto Hex).
  - rewrite <- !app_assoc. exact (run_export_fails E out s m0 w1 m1 w2 e w4 Hload Hto Hex).
Qed.

End Steps.

(* --------------------------------------------------------------------- *)
(** * Facts about [torch.randint]                                         *)
(* --------------------------------------------------------------------- *)

Section Randint.

Context {Audio Weights : Type}.
Variable E : Env Audio Weights.

Lemma draws_length n g : length (draws E n g).1 = n.
Proof.
  revert g. induction n as [|n IH]; intros g; [reflexivity|].
  cbn [draws fst length]. now rewrite IH.
Qed.

Lemma randint_tensor_length low high size dt g :
  length (t_data (randint_tensor E low high size dt g)) = Z.to_nat (numel size).
Proof.
  unfold randint_tensor. cbn [t_data]. now rewrite length_map, draws_length.
Qed.

Lemma randint_tensor_range low high size dt g :
  low < high ->
  Forall (fun x => low <= x < high) (t_data (randint_tensor E low high size dt g)).
Proof.
  intros Hlt. unfold randint_tensor. cbn [t_data].
  apply List.Forall_map, Forall_forall. intros r _.
  pose proof (Z.mod_pos_bound r (high - low)). lia.
Qed.

Lemma randint_tensor_vocabulary size dt g :
  in_vocabulary (randint_tensor E 0 1024 size dt g).
Proof.
  unfold in_vocabulary.
  eapply List.Forall_impl; [|apply randint_tensor_range; lia].
  intros x Hx. cbn beta in Hx. lia.
Qed.

Lemma traced_inputs_vocabulary g : Forall in_vocabulary (traced_inputs E g).
Proof.
  unfold traced_inputs.
  repeat (constructor; [apply randint_tensor_vocabulary|]). constructor.
Qed.

End Randint.

(* --------------------------------------------------------------------- *)
(** * What a log of [export_model] can contain                            *)
(* --------------------------------------------------------------------- *)

Section LogFacts.

Context {Audio Weights : Type}.
Variable E : Env Audio Weights.

Ltac in_log :=
  repeat match goal with
  | H : In _ (_ ++ _) |- _ => apply in_app_or in H; destruct H as [H|H]
  | H : In _ (_ :: _) |- _ => destruct H as [H|H]
  | H : In _ [] |- _ => destruct H
  | H : (_, _) = (_, _) |- _ => inversion H; clear H; subst
  end.

(** An export entry in the log of a run from a fresh state: the loading
    calls returned, the entry is the call of [traced_call], issued under
    the autograd mode the loading calls left, and it is the only one. *)
Lemma export_entry_inv out w c g r :
  In (EvExport c g, r) (log (export_model E out (init w)).2) ->
  exists m0 w1 m1 w2,
    from_pretrained E "hubertsiuzdak/snac_24khz"
      (write_line Stdout "Loading SNAC model..." w) = (Return m0, w1) /\
    module_to E m0 "cpu" w1 = (Return m1, w2) /\
    c = traced_call E out m1 (rng w2) /\
    g = grad_enabled w2 /\
    export_calls (log (export_model E out (init w)).2) = [(c, g)].
Proof.
  destruct (export_model_run E out (init w)) as
    [e w1 Hl | m0 w1 e w2 Hl Ht | m0 w1 m1 w2 e w4 Hl Ht Hx | m0 w1 m1 w2 w4 Hl Ht Hx];
    cbn [snd log init app world] in *; unfold log_loaded, log_prepared;
    intros H; in_log; try discriminate.
  - exists m0, w1, m1, w2. repeat split; assumption || reflexivity.
  - exists m0, w1, m1, w2. repeat split; assumption || reflexivity.
Qed.

(** An exception logged during a run is the run's outcome: none is
    caught on the way. *)
Lemma raised_entry_is_outcome out w ev e :
  In (ev, Some e) (log (export_model E out (init w)).2) ->
  (export_model E out (init w)).1 = Raise e.
Proof.
  destruct (export_model_run E out (init w)) as
    [e1 w1 Hl | m0 w1 e1 w2 Hl Ht | m0 w1 m1 w2 e1 w4 Hl Ht Hx | m0 w1 m1 w2 w4 Hl Ht Hx];
    cbn [fst snd log init app world] in *; unfold log_loaded, log_prepared;
    intros H; in_log; try discriminate; reflexivity.
Qed.

(** [model.eval()] runs before the export call. *)
Lemma eval_before_export out w c g r :
  In (EvExport c g, r) (log (export_model E out (init w)).2) ->
  exists pre m post,
    log (export_model E out (init w)).2 = pre ++ (EvEval m, None) :: post /\
    In (EvExport c g, r) post.
Proof.
  destruct (export_model_run E out (init w)) as
    [e1 w1 Hl | m0 w1 e1 w2 Hl Ht | m0 w1 m1 w2 e1 w4 Hl Ht Hx | m0 w1 m1 w2 w4 Hl Ht Hx];
    cbn [fst snd log init app world] in *; unfold log_loaded, log_prepared;
    intros H; in_log; try discriminate.
  - eexists [_; _; _], m1, _. split; [reflexivity|].
    cbn [app]. do 4 right. left. reflexivity.
  - eexists [_; _; _], m1, _. split; [reflexivity|].
    cbn [app]. do 4 right. left. reflexivity.
Qed.

End LogFacts.

Section CallFacts.

Context {Audio Weights : Type}.
Variable E : Env Audio Weights.

Lemma traced_call_declares out m g :
  declares_names_and_axes (traced_call E out m g).
Proof.
  unfold declares_names_and_axes, traced_call.
  cbn [ex_input_names ex_output_names ex_dynamic_axes ex_opset_version].
  repeat split.
  - intros n [<-|[<-|[<-|[]]]]; reflexivity.
  - intros n [<-|[]]; reflexivity.
  - intros n Hn. apply elem_of_dom in Hn.
    rewrite !dom_insert_L, dom_singleton_L in Hn.
    cbn [app In]. set_unfold. intuition.
Qed.

End CallFacts.

(* --------------------------------------------------------------------- *)
(** * The module body                                                     *)
(* --------------------------------------------------------------------- *)

Section ScriptFacts.

Context {Audio Weights : Type}.
Variable E : Env Audio Weights.

(** With snac missing the handler runs: one line on standard error, then
    [sys.exit(1)]. *)
Lemma script_import_fails w e :
  import_snac E = Raise e ->
  is_ImportError e = true ->
  script E (init w) =
  (Raise (SystemExit 1),
   mkState (write_line Stderr missing_snac_message w)
     [(EvImport "snac", Some e);
      (EvPrint Stderr missing_snac_message, None);
      (EvExit 1, Some (SystemExit 1))]).
Proof.
  intros Himp Hcls. unfold script.
  rewrite bind_run. unfold try_except, import_SNAC.
  rewrite call_run. cbn [fst snd world log init app]. rewrite Himp, Hcls.
  rewrite bind_run, print_run. unfold sys_exit. rewrite call_run.
  reflexivity.
Qed.

(** With snac present the module body is [export_model()] with the
    default path. *)
Lemma script_import_ok w :
  import_snac E = Return tt ->
  script E (init w) =
  export_model E "snac.onnx" (mkState w [(EvImport "snac", None)]).
Proof.
  intros Himp. unfold script.
  rewrite bind_run. unfold try_except, import_SNAC.
  rewrite call_run. cbn [fst snd world log init app]. rewrite Himp.
  reflexivity.
Qed.

(** A failing library call decides the run: its exception is the outcome,
    its world is the final world, and its entry closes the log. *)
Lemma library_failure_run out s e w' :
  LibraryFailure E out (world s) e w' ->
  exists pre ev,
    is_library_call ev = true /\
    export_model E out s = (Raise e, mkState w' (log s ++ pre ++ [(ev, Some e)])).
Proof.
  intros HF.
  destruct (export_model_run E out s) as
    [e1 v1 Hl | m0 v1 e1 v2 Hl Ht | m0 v1 m1 v2 e1 v4 Hl Ht Hx | m0 v1 m1 v2 v4 Hl Ht Hx];
    destruct HF as [e2 u1 Gl | n0 u1 e2 u2 Gl Gt | n0 u1 n1 u2 e2 u4 Gl Gt Gx];
    rewrite Gl in Hl; try discriminate; injection Hl as ? ?; subst;
    try (rewrite Gt in Ht; try discriminate; injection Ht as ? ?; subst);
    try (rewrite Gx in Hx; try discriminate; injection Hx as ? ?; subst).
  - exists [(EvPrint Stdout "Loading SNAC model...", None)], (EvFromPretrained "hubertsiuzdak/snac_24khz").
    split; reflexivity.
  - eexists [_; _], (EvTo _ "cpu"). split; reflexivity.
  - eexists (log_loaded _ _ ++ log_prepared out), (EvExport _ _).
    split; [reflexivity|]. now rewrite <- app_assoc.
Qed.

(** A run makes at most one attempt at each library call. *)
Lemma export_model_single_attempt out w :
  (length (load_calls (log (export_model E out (init w)).2)) <= 1)%nat /\
  (length (export_calls (log (export_model E out (init w)).2)) <= 1)%nat.
Proof.
  destruct (export_model_run E out (init w)); cbn; lia.
Qed.

(** Whatever [export_model] raises was raised by a library call, which is
    then the last statement executed. *)
Lemma export_model_raise_inv out s e :
  (export_model E out s).1 = Raise e ->
  exists pre ev,
    is_library_call ev = true /\
    log (export_model E out s).2 = log s ++ pre ++ [(ev, Some e)].
Proof.
  destruct (export_model_run E out s) as
    [e1 v1 Hl | m0 v1 e1 v2 Hl Ht | m0 v1 m1 v2 e1 v4 Hl Ht Hx | m0 v1 m1 v2 v4 Hl Ht Hx];
    cbn [fst snd log]; intros H; try discriminate; injection H as ->.
  - eexists [_], (EvFromPretrained _). split; reflexivity.
  - eexists [_; _], (EvTo _ _). split; reflexivity.
  - eexists (log_loaded _ _ ++ log_prepared out), (EvExport _ _).
    split; [reflexivity|]. now rewrite <- app_assoc.
Qed.

End ScriptFacts.

(* --------------------------------------------------------------------- *)
(** * The dummy values and the generator                                  *)
(* --------------------------------------------------------------------- *)

Section GeneratorFacts.

Context {Audio Weights : Type}.
Variable E : Env Audio Weights.

Lemma generator_state_add a b g :
  generator_state E (a + b) g = generator_state E a (generator_state E b g).
Proof. unfold generator_state. apply Nat.iter_add. Qed.

Lemma generator_output_shift a k g :
  generator_output E k (generator_state E a g) = generator_output E (a + k) g.
Proof.
  unfold generator_output. now rewrite (Nat.add_comm a k), generator_state_add.
Qed.

(** [draws] hands out the generator's outputs one after the other and
    leaves it advanced by as many steps. *)
Lemma draws_state n g : (draws E n g).2 = generator_state E n g.
Proof.
  revert g. induction n as [|n IH]; intros g; [reflexivity|].
  cbn [draws snd]. rewrite IH. unfold generator_state.
  now rewrite Nat.iter_succ_r.
Qed.

Lemma draws_values n g :
  (draws E n g).1 = map (fun k => generator_output E k g) (seq 0 n).
Proof.
  revert g. induction n as [|n IH]; intros g; [reflexivity|].
  cbn [draws fst seq map]. rewrite IH. f_equal.
  rewrite <- seq_shift, map_map. apply map_ext. intros k.
  unfold generator_output, generator_state. now rewrite Nat.iter_succ_r.
Qed.

Lemma vocabulary_draws_length g start len :
  length (vocabulary_draws E g start len) = len.
Proof. unfold vocabulary_draws. now rewrite length_map, length_seq. Qed.

Lemma vocabulary_draws_app g start n m :
  vocabulary_draws E g start (n + m) =
  vocabulary_draws E g start n ++ vocabulary_draws E g (start + n) m.
Proof. unfold vocabulary_draws. now rewrite seq_app, map_app. Qed.

(** A [randint] over the vocabulary, after [a] earlier draws, yields draws
    [a], [a + 1], ... of the generator. *)
Lemma randint_tensor_values size dt a g :
  t_data (randint_tensor E 0 1024 size dt (generator_state E a g)) =
  vocabulary_draws E g a (Z.to_nat (numel size)).
Proof.
  unfold randint_tensor, vocabulary_draws. cbn [t_data].
  rewrite draws_values, map_map.
  assert (Hseq : seq a (Z.to_nat (numel size)) =
                 map (Nat.add a) (seq 0 (Z.to_nat (numel size)))).
  { pose proof (fmap_add_seq a 0 (Z.to_nat (numel size))) as H.
    rewrite Nat.add_0_r in H. symmetry. exact H. }
  rewrite Hseq, map_map. apply map_ext. intros k.
  now rewrite generator_output_shift.
Qed.

Lemma randint_next_state size g :
  randint_next E size g = generator_state E (Z.to_nat (numel size)) g.
Proof. apply draws_state. Qed.

(** The three tensors are draws 0-9, 10-29 and 30-69. *)
Lemma traced_inputs_values g :
  map t_data (traced_inputs E g) =
  [vocabulary_draws E g 0 10; vocabulary_draws E g 10 20; vocabulary_draws E g 30 40].
Proof.
  unfold traced_inputs. cbv zeta. cbn [map].
  rewrite !randint_next_state.
  change (Z.to_nat (numel [1; 10])) with 10%nat.
  change (Z.to_nat (numel [1; 20])) with 20%nat.
  rewrite <- (generator_state_add 20 10 g).
  change (20 + 10)%nat with 30%nat.
  rewrite (randint_tensor_values [1; 10] int32 0 g : t_data (randint_tensor E 0 1024 [1; 10] int32 g) = _).
  rewrite !randint_tensor_values. reflexivity.
Qed.

Lemma rng_after_inputs_state g :
  rng_after_inputs E g = generator_state E 70 g.
Proof.
  unfold rng_after_inputs. rewrite !randint_next_state.
  change (Z.to_nat (numel [1; 10])) with 10%nat.
  change (Z.to_nat (numel [1; 20])) with 20%nat.
  change (Z.to_nat (numel [1; 40])) with 40%nat.
  now rewrite <- !generator_state_add.
Qed.

(** Draws 0-69 are the three segments in a row. *)
Lemma vocabulary_draws_70 g :
  vocabulary_draws E g 0 70 =
  vocabulary_draws E g 0 10 ++ vocabulary_draws E g 10 20 ++ vocabulary_draws E g 30 40.
Proof.
  change 70%nat with (10 + (20 + 40))%nat.
  rewrite (vocabulary_draws_app g 0 10), (vocabulary_draws_app g (0 + 10) 20).
  reflexivity.
Qed.

End GeneratorFacts.

(** Two triples of segments are equal iff the 70 draws are. *)
Lemma traced_values_eq_iff {Audio Weights} (E E' : Env Audio Weights) g g' :
  [vocabulary_draws E g 0 10; vocabulary_draws E g 10 20; vocabulary_draws E g 30 40] =
  [vocabulary_draws E' g' 0 10; vocabulary_draws E' g' 10 20; vocabulary_draws E' g' 30 40]
  <-> vocabulary_draws E g 0 70 = vocabulary_draws E' g' 0 70.
Proof.
  rewrite !vocabulary_draws_70. split.
  - intros H. apply (f_equal (@concat Z)) in H. cbn [concat] in H.
    rewrite !app_nil_r in H. exact H.
  - intros H.
    apply app_inj_1 in H as [-> H]; [|now rewrite !vocabulary_draws_length].
    apply app_inj_1 in H as [-> ->]; [|now rewrite !vocabulary_draws_length].
    reflexivity.
Qed.


Section GeneratorRuns.

Context {Audio Weights : Type}.
Variable E : Env Audio Weights.

(** Starting the generator [a] steps later shifts the draws by [a]. *)
Lemma vocabulary_draws_shift a g start len :
  vocabulary_draws E (generator_state E a g) start len =
  vocabulary_draws E g (a + start) len.
Proof.
  unfold vocabulary_draws.
  assert (Hseq : seq (a + start) len = map (Nat.add a) (seq start len)).
  { symmetry. exact (fmap_add_seq a start len). }
  rewrite Hseq, map_map. apply map_ext. intros k.
  now rewrite generator_output_shift.
Qed.

(** With libraries that leave the generator alone, a run draws its dummy
    tensors from the generator state it starts in, and a run that returns
    leaves the generator 70 draws further. *)
Lemma export_model_generator out s :
  libraries_preserve rng E ->
  exists new,
    export_calls (log (export_model E out s).2) = export_calls (log s) ++ new /\
    Forall (fun cg => ex_args cg.1 = traced_inputs E (rng (world s))) new /\
    ((export_model E out s).1 = Return tt ->
     length new = 1%nat /\
     rng (world (export_model E out s).2) = generator_state E 70 (rng (world s))).
Proof.
  intros (Hfetch & Hto & Hexp).
  destruct (export_model_run E out s) as
    [e1 v1 Hl | m0 v1 e1 v2 Hl Ht | m0 v1 m1 v2 e1 v4 Hl Ht Hx | m0 v1 m1 v2 v4 Hl Ht Hx];
    cbn [fst snd world log]; unfold export_calls; rewrite omap_app;
    pose proof (Hfetch "hubertsiuzdak/snac_24khz"
                  (write_line Stdout "Loading SNAC model..." (world s))) as H1;
    rewrite Hl in H1; cbn [snd write_line rng] in H1.
  - exists []. split; [reflexivity|]. split; [constructor|discriminate].
  - exists []. split; [reflexivity|]. split; [constructor|discriminate].
  - pose proof (Hto m0 "cpu" v1) as H2; rewrite Ht in H2; cbn [snd] in H2.
    eexists [(_, _)]. split; [reflexivity|]. split; [|discriminate].
    constructor; [|constructor]. cbn [fst traced_call ex_args]. now rewrite H2, H1.
  - pose proof (Hto m0 "cpu" v1) as H2; rewrite Ht in H2; cbn [snd] in H2.
    pose proof (Hexp (traced_call E out m1 (rng v2)) (world_at_export E out v2)) as H3.
    rewrite Hx in H3; cbn [snd world_at_export rng] in H3.
    eexists [(_, _)]. split; [reflexivity|]. split.
    + constructor; [|constructor]. cbn [fst traced_call ex_args]. now rewrite H2, H1.
    + intros _. split; [reflexivity|].
      cbn [write_line rng]. now rewrite H3, rng_after_inputs_state, H2, H1.
Qed.

End GeneratorRuns.

(* ===================================================================== *)
(** * The claims                                                          *)
(* ===================================================================== *)

(** C1. The adapter takes three code tensors [c0], [c1], [c2] and hands them
    to the decoder's decode operation as the ordered list [[c0; c1; c2]];
    what decode gives back (audio or exception) is returned unchanged. *)
Theorem forward_is_decode {Audio Weights} (E : Env Audio Weights)
    (m : Model Weights) (c0 c1 c2 : Tensor) :
  forward E (SnacWrapper_init m) c0 c1 c2 = decode E m [c0; c1; c2].
Proof. reflexivity. Qed.

(** C2. An export call that a run of [export_model] issues is the only one
    of the run; it names the inputs codes_0, codes_1, codes_2 and the output
    audio, declares axes 0 (batch) and 1 (time) dynamic for each input and
    axes 0 and 2 for the output, declares nothing else, and asks for opset
    version 18. *)
Theorem export_call_arguments {Audio Weights} (E : Env Audio Weights)
    (out : string) (w : World) (c : ExportCall Weights) (g : bool) (r : option PyExn) :
  In (EvExport c g, r) (log (export_model E out (init w)).2) ->
  export_calls (log (export_model E out (init w)).2) = [(c, g)] /\
  ex_f c = out /\
  declares_names_and_axes c.
Proof.
  intros H.
  destruct (export_entry_inv E out w c g r H) as (m0 & w1 & m1 & w2 & _ & _ & -> & -> & Hone).
  split; [exact Hone|]. split; [reflexivity|]. apply traced_call_declares.
Qed.

Lemma export_call_arguments_witness :
  export_calls (log (export_model Demo.env "snac.onnx" (init Demo.w0)).2)
    = [(Demo.call0, true)] /\
  ex_f Demo.call0 = "snac.onnx" /\
  declares_names_and_axes Demo.call0.
Proof.
  apply (export_call_arguments Demo.env "snac.onnx" Demo.w0 Demo.call0 true None).
  vm_compute. do 8 right. left. reflexivity.
Defined.

(** C3. The three dummy code tensors handed to the export call have time
    lengths 10, 20 and 40 (and as many elements), which is the ratio 1:2:4,
    and every element lies between 0 and 1023. *)
Theorem dummy_inputs_lengths_and_vocabulary {Audio Weights} (E : Env Audio Weights)
    (out : string) (w : World) (c : ExportCall Weights) (g : bool) (r : option PyExn) :
  In (EvExport c g, r) (log (export_model E out (init w)).2) ->
  exists t0 t1 t2,
    ex_args c = [t0; t1; t2] /\
    time_length t0 = Some 10 /\ time_length t1 = Some 20 /\ time_length t2 = Some 40 /\
    length (t_data t0) = 10%nat /\ length (t_data t1) = 20%nat /\
    length (t_data t2) = 40%nat /\
    ratio_1_2_4 t0 t1 t2 = true /\
    in_vocabulary t0 /\ in_vocabulary t1 /\ in_vocabulary t2.
Proof.
  intros H.
  destruct (export_entry_inv E out w c g r H) as (m0 & w1 & m1 & w2 & _ & _ & -> & _ & _).
  unfold traced_call; cbn [ex_args]. unfold traced_inputs.
  eexists _, _, _. split; [reflexivity|].
  repeat split;
    first [ apply randint_tensor_vocabulary
          | apply (randint_tensor_length E)
          | reflexivity ].
Qed.

Lemma dummy_inputs_lengths_and_vocabulary_witness :
  exists t0 t1 t2,
    ex_args Demo.call0 = [t0; t1; t2] /\
    time_length t0 = Some 10 /\ time_length t1 = Some 20 /\ time_length t2 = Some 40 /\
    length (t_data t0) = 10%nat /\ length (t_data t1) = 20%nat /\
    length (t_data t2) = 40%nat /\
    ratio_1_2_4 t0 t1 t2 = true /\
    in_vocabulary t0 /\ in_vocabulary t1 /\ in_vocabulary t2.
Proof.
  apply (dummy_inputs_lengths_and_vocabulary
           Demo.env "snac.onnx" Demo.w0 Demo.call0 true None).
  vm_compute. do 8 right. left. reflexivity.
Defined.

(** C9. Every dummy code tensor handed to the export call has dtype int32
    and batch dimension 1: the shapes are (1, 10), (1, 20) and (1, 40). *)
Theorem dummy_inputs_int32_single_batch {Audio Weights} (E : Env Audio Weights)
    (out : string) (w : World) (c : ExportCall Weights) (g : bool) (r : option PyExn) :
  In (EvExport c g, r) (log (export_model E out (init w)).2) ->
  map t_dtype (ex_args c) = [int32; int32; int32] /\
  map t_shape (ex_args c) = [[1; 10]; [1; 20]; [1; 40]] /\
  map batch_size (ex_args c) = [Some 1; Some 1; Some 1].
Proof.
  intros H.
  destruct (export_entry_inv E out w c g r H) as (m0 & w1 & m1 & w2 & _ & _ & -> & _ & _).
  repeat split.
Qed.

Lemma dummy_inputs_int32_single_batch_witness :
  map t_dtype (ex_args Demo.call0) = [int32; int32; int32] /\
  map t_shape (ex_args Demo.call0) = [[1; 10]; [1; 20]; [1; 40]] /\
  map batch_size (ex_args Demo.call0) = [Some 1; Some 1; Some 1].
Proof.
  apply (dummy_inputs_int32_single_batch
           Demo.env "snac.onnx" Demo.w0 Demo.call0 true None).
  vm_compute. do 8 right. left. reflexivity.
Defined.

(** C4. When [from snac import SNAC] raises ImportError, the process writes
    one line to standard error and ends with exit status 1; it has executed
    nothing but the failed import, that print and [sys.exit(1)], so standard
    output and the file system are as they were. *)
Theorem missing_snac_exits_with_status_1 {Audio Weights} (E : Env Audio Weights)
    (w : World) (e : PyExn) :
  import_snac E = Raise e ->
  is_ImportError e = true ->
  (run_process E w).1 = 1 /\
  stderr (world (run_process E w).2) = stderr w ++ [missing_snac_message] /\
  stdout (world (run_process E w).2) = stdout w /\
  fs (world (run_process E w).2) = fs w /\
  log (run_process E w).2 =
    [(EvImport "snac", Some e);
     (EvPrint Stderr missing_snac_message, None);
     (EvExit 1, Some (SystemExit 1))].
Proof.
  intros Himp Hcls. unfold run_process.
  rewrite (script_import_fails E w e Himp Hcls).
  repeat split.
Qed.

Lemma missing_snac_exits_with_status_1_witness :
  (run_process Demo.env_no_snac Demo.w0).1 = 1 /\
  stderr (world (run_process Demo.env_no_snac Demo.w0).2)
    = stderr Demo.w0 ++ [missing_snac_message] /\
  stdout (world (run_process Demo.env_no_snac Demo.w0).2) = stdout Demo.w0 /\
  fs (world (run_process Demo.env_no_snac Demo.w0).2) = fs Demo.w0 /\
  log (run_process Demo.env_no_snac Demo.w0).2 =
    [(EvImport "snac", Some (Exn ModuleNotFoundError "No module named 'snac'"));
     (EvPrint Stderr missing_snac_message, None);
     (EvExit 1, Some (SystemExit 1))].
Proof.
  apply (missing_snac_exits_with_status_1 Demo.env_no_snac Demo.w0
           (Exn ModuleNotFoundError "No module named 'snac'")); reflexivity.
Defined.

(** C5. When fetching the model, moving it to the device or the export call
    raises, [export_model] raises that same exception: the failing call is
    the last statement executed, the world is left as that call left it
    (nothing is cleaned up), no other exception was raised and caught on
    the way, and each of the fetch and the export was attempted at most
    once.  Run as the script, an error (any exception but SystemExit) ends
    the process with status 1 after the interpreter's report on standard
    error. *)
Theorem library_errors_propagate {Audio Weights} (E : Env Audio Weights)
    (out : string) (w : World) (e : PyExn) (w' : World) :
  LibraryFailure E out w e w' ->
  (export_model E out (init w)).1 = Raise e /\
  world (export_model E out (init w)).2 = w' /\
  (exists pre ev,
     is_library_call ev = true /\
     log (export_model E out (init w)).2 = pre ++ [(ev, Some e)]) /\
  (forall ev' e', In (ev', Some e') (log (export_model E out (init w)).2) -> e' = e) /\
  (length (load_calls (log (export_model E out (init w)).2)) <= 1)%nat /\
  (length (export_calls (log (export_model E out (init w)).2)) <= 1)%nat /\
  (out = "snac.onnx" -> import_snac E = Return tt -> is_error e = true ->
   (run_process E w).1 = 1 /\
   world (run_process E w).2 =
     fold_left (fun w l => write_line Stderr l w) (traceback E e) w').
Proof.
  intros HF.
  destruct (library_failure_run E out (init w) e w' HF) as (pre & ev & Hev & Hrun).
  split; [now rewrite Hrun|]. split; [now rewrite Hrun|].
  split; [exists pre, ev; split; [exact Hev|now rewrite Hrun]|].
  split.
  { intros ev' e' Hin. apply raised_entry_is_outcome in Hin.
    rewrite Hrun in Hin. cbn [fst] in Hin. congruence. }
  split; [apply export_model_single_attempt|].
  split; [apply export_model_single_attempt|].
  intros -> Himp Herr. unfold run_process. rewrite (script_import_ok E w Himp).
  destruct (library_failure_run E "snac.onnx" (mkState w [(EvImport "snac", None)]) e w' HF)
    as (pre' & ev' & _ & ->).
  destruct e as [code|cls msg]; [discriminate|]. split; reflexivity.
Qed.

Lemma library_errors_propagate_witness :
  (export_model Demo.env_export_fails "snac.onnx" (init Demo.w0)).1
    = Raise (Exn RuntimeError "Unsupported ONNX opset version") /\
  fs (world (export_model Demo.env_export_fails "snac.onnx" (init Demo.w0)).2)
    !! "snac.onnx" = Some "" /\
  (run_process Demo.env_export_fails Demo.w0).1 = 1.
Proof.
  pose proof (library_errors_propagate Demo.env_export_fails "snac.onnx" Demo.w0
                (Exn RuntimeError "Unsupported ONNX opset version")
                (Demo.write_file "snac.onnx" ""
                   (world_at_export Demo.env_export_fails "snac.onnx"
                      (write_line Stdout "Loading SNAC model..." Demo.w0)))) as H.
  destruct H as (Hout & Hworld & _ & _ & _ & _ & Hproc).
  - eapply export_raises; reflexivity.
  - split; [exact Hout|]. split; [rewrite Hworld; reflexivity|].
    apply Hproc; reflexivity.
Defined.

(** C6. Neither the adapter nor the export routine checks the 1:2:4 ratio.
    For every triple of tensors the adapter raises only what decode raises
    and returns whatever decode returns, and a triple that violates the
    ratio goes through; [export_model] raises only what a library call
    raised; the ratio shows up only in the dummy inputs, which satisfy it. *)
Theorem no_ratio_validation :
  (forall Audio Weights (E : Env Audio Weights) (self : SnacWrapper Weights)
          (c0 c1 c2 : Tensor) (a : Audio),
     decode E (model self) [c0; c1; c2] = Return a ->
     forward E self c0 c1 c2 = Return a) /\
  (forall Audio Weights (E : Env Audio Weights) (self : SnacWrapper Weights)
          (c0 c1 c2 : Tensor) (e : PyExn),
     forward E self c0 c1 c2 = Raise e ->
     decode E (model self) [c0; c1; c2] = Raise e) /\
  (ratio_1_2_4 Demo.odd0 Demo.odd1 Demo.odd2 = false /\
   exists a,
     forward Demo.env (SnacWrapper_init (mkModel false "cpu" 24000))
       Demo.odd0 Demo.odd1 Demo.odd2 = Return a) /\
  (forall Audio Weights (E : Env Audio Weights) (out : string) (w : World) (e : PyExn),
     (export_model E out (init w)).1 = Raise e ->
     exists pre ev,
       is_library_call ev = true /\
       log (export_model E out (init w)).2 = pre ++ [(ev, Some e)]) /\
  (forall Audio Weights (E : Env Audio Weights) (out : string) (w : World)
          (c : ExportCall Weights) (g : bool) (r : option PyExn),
     In (EvExport c g, r) (log (export_model E out (init w)).2) ->
     exists t0 t1 t2,
       ex_args c = [t0; t1; t2] /\ ratio_1_2_4 t0 t1 t2 = true).
Proof.
  split; [intros ? ? E self c0 c1 c2 a H; exact H|].
  split; [intros ? ? E self c0 c1 c2 e H; exact H|].
  split; [split; [reflexivity|eexists; reflexivity]|].
  split.
  - intros ? ? E out w e H.
    destruct (export_model_raise_inv E out (init w) e H) as (pre & ev & Hev & Hlog).
    exists pre, ev. split; [exact Hev|exact Hlog].
  - intros ? ? E out w c g r H.
    destruct (export_entry_inv E out w c g r H) as (m0 & w1 & m1 & w2 & _ & _ & -> & _ & _).
    eexists _, _, _. split; reflexivity.
Qed.

Lemma no_ratio_validation_witness :
  forward Demo.env (SnacWrapper_init (mkModel false "cpu" 24000))
    Demo.odd0 Demo.odd1 Demo.odd2
  = Return [5; 6; 7; 1; 2; 3; 4; 5; 9; 9; 9; 9] /\
  exists t0 t1 t2,
    ex_args Demo.call0 = [t0; t1; t2] /\ ratio_1_2_4 t0 t1 t2 = true.
Proof.
  destruct no_ratio_validation as (Hret & _ & _ & _ & Hdummy).
  split.
  - apply (Hret (list Z) Z Demo.env). reflexivity.
  - apply (Hdummy (list Z) Z Demo.env "snac.onnx" Demo.w0 Demo.call0 true None).
    vm_compute. do 8 right. left. reflexivity.
Defined.

(** C7, as claimed, fails: in a process with autograd on (the default) the
    export call is issued with autograd still on. *)
Lemma inference_mode_counterexample :
  ~ export_in_inference_mode Demo.env "snac.onnx" Demo.w0.
Proof.
  intros H.
  destruct (H Demo.call0 true None) as [_ Hg]; [|discriminate Hg].
  vm_compute. do 8 right. left. reflexivity.
Qed.

(** C7, amended. The decoder handed to the export call is in evaluation
    mode ([training = False]), set by [model.eval()] before the call; the
    script does not touch the autograd mode: the call is issued under the
    mode that the loading calls left. *)
Theorem export_in_eval_mode_ambient_autograd {Audio Weights} (E : Env Audio Weights)
    (out : string) (w : World) (c : ExportCall Weights) (g : bool) (r : option PyExn) :
  In (EvExport c g, r) (log (export_model E out (init w)).2) ->
  training (model (ex_model c)) = false /\
  (exists pre m post,
     log (export_model E out (init w)).2 = pre ++ (EvEval m, None) :: post /\
     In (EvExport c g, r) post) /\
  (exists m0 w1 m1 w2,
     from_pretrained E "hubertsiuzdak/snac_24khz"
       (write_line Stdout "Loading SNAC model..." w) = (Return m0, w1) /\
     module_to E m0 "cpu" w1 = (Return m1, w2) /\
     g = grad_enabled w2).
Proof.
  intros H. pose proof (eval_before_export E out w c g r H) as Heval.
  destruct (export_entry_inv E out w c g r H) as (m0 & w1 & m1 & w2 & Hl & Ht & -> & -> & _).
  split; [reflexivity|]. split; [exact Heval|].
  exists m0, w1, m1, w2. repeat split; assumption.
Qed.

Lemma export_in_eval_mode_ambient_autograd_witness :
  training (model (ex_model Demo.call0)) = false.
Proof.
  apply (export_in_eval_mode_ambient_autograd
           Demo.env "snac.onnx" Demo.w0 Demo.call0 true None).
  vm_compute. do 8 right. left. reflexivity.
Defined.

(** C8. A run of [export_model] that returns has executed, in this order:
    the loading message, the model retrieval, the dummy inputs, the
    exporting message, the export call, and last the message
    "Export complete.", with which standard output ends. *)
Theorem progress_messages_in_order {Audio Weights} (E : Env Audio Weights)
    (out : string) (s : State Weights) :
  (export_model E out s).1 = Return tt ->
  exists m0 m1 c g,
    log (export_model E out s).2 =
      log s ++
      [(EvPrint Stdout "Loading SNAC model...", None);
       (EvFromPretrained "hubertsiuzdak/snac_24khz", None);
       (EvTo m0 "cpu", None);
       (EvEval m1, None);
       (EvRandint 0 1024 [1; 10] int32, None);
       (EvRandint 0 1024 [1; 20] int32, None);
       (EvRandint 0 1024 [1; 40] int32, None);
       (EvPrint Stdout ("Exporting to " +:+ out +:+ "..."), None);
       (EvExport c g, None);
       (EvPrint Stdout "Export complete.", None)] /\
    printed Stdout (log (export_model E out s).2) =
      printed Stdout (log s) ++
      ["Loading SNAC model..."; "Exporting to " +:+ out +:+ "..."; "Export complete."] /\
    last (stdout (world (export_model E out s).2)) = Some "Export complete.".
Proof.
  destruct (export_model_run E out s) as
    [e1 v1 Hl | m0 v1 e1 v2 Hl Ht | m0 v1 m1 v2 e1 v4 Hl Ht Hx | m0 v1 m1 v2 v4 Hl Ht Hx];
    cbn [fst snd log world]; intros H; try discriminate.
  exists m0, m1, (traced_call E out m1 (rng v2)), (grad_enabled v2).
  split; [reflexivity|]. split.
  - unfold printed. rewrite omap_app. reflexivity.
  - cbn [write_line stdout]. apply last_snoc.
Qed.

Lemma progress_messages_in_order_witness :
  exists m0 m1 c g,
    log (export_model Demo.env "snac.onnx" (init Demo.w0)).2 =
      log (init Demo.w0 : State Z) ++
      [(EvPrint Stdout "Loading SNAC model...", None);
       (EvFromPretrained "hubertsiuzdak/snac_24khz", None);
       (EvTo m0 "cpu", None);
       (EvEval m1, None);
       (EvRandint 0 1024 [1; 10] int32, None);
       (EvRandint 0 1024 [1; 20] int32, None);
       (EvRandint 0 1024 [1; 40] int32, None);
       (EvPrint Stdout ("Exporting to " +:+ "snac.onnx" +:+ "..."), None);
       (EvExport c g, None);
       (EvPrint Stdout "Export complete.", None)] /\
    printed Stdout (log (export_model Demo.env "snac.onnx" (init Demo.w0)).2) =
      printed Stdout (log (init Demo.w0 : State Z)) ++
      ["Loading SNAC model..."; "Exporting to " +:+ "snac.onnx" +:+ "...";
       "Export complete."] /\
    last (stdout (world (export_model Demo.env "snac.onnx" (init Demo.w0)).2))
      = Some "Export complete.".
Proof.
  apply (progress_messages_in_order Demo.env "snac.onnx" (init Demo.w0)).
  vm_compute. reflexivity.
Defined.

(** C10. The dummy values are the outputs of torch's default generator,
    taken as they come from the state the loading calls left it in (the
    script never seeds or resets it) and brought into [0, 1024): draws 0-9,
    10-29 and 30-69 fill the three tensors.  Hence any two runs that reach
    the export call trace tensors of the same shapes and dtype, and trace
    the same values only if the generator hands both the same 70 outputs
    modulo 1024.  A second invocation in the same process continues where
    the first stopped (draws 70-139), so it repeats the first one's values
    only if the generator repeats itself.  Two runs from different
    generator states, and two invocations in one process, are exhibited
    with different values. *)
Theorem traced_values_vary_shapes_fixed :
  (forall Audio Weights (E E' : Env Audio Weights) (out out' : string) (w w' : World)
          (c c' : ExportCall Weights) (g g' : bool) (r r' : option PyExn),
     In (EvExport c g, r) (log (export_model E out (init w)).2) ->
     In (EvExport c' g', r') (log (export_model E' out' (init w')).2) ->
     map t_shape (ex_args c) = map t_shape (ex_args c') /\
     map t_dtype (ex_args c) = map t_dtype (ex_args c') /\
     Forall in_vocabulary (ex_args c)) /\
  (forall Audio Weights (E : Env Audio Weights) (out : string) (w : World)
          (c : ExportCall Weights) (g : bool) (r : option PyExn),
     In (EvExport c g, r) (log (export_model E out (init w)).2) ->
     exists m0 w1 m1 w2,
       from_pretrained E "hubertsiuzdak/snac_24khz"
         (write_line Stdout "Loading SNAC model..." w) = (Return m0, w1) /\
       module_to E m0 "cpu" w1 = (Return m1, w2) /\
       ex_args c = traced_inputs E (rng w2) /\
       map t_data (ex_args c) =
         [vocabulary_draws E (rng w2) 0 10;
          vocabulary_draws E (rng w2) 10 20;
          vocabulary_draws E (rng w2) 30 40]) /\
  (forall Audio Weights (E E' : Env Audio Weights) (out out' : string) (w w' : World)
          (c c' : ExportCall Weights) (g g' : bool) (r r' : option PyExn)
          (m0 m1 m0' m1' : Model Weights) (w1 w2 w1' w2' : World),
     from_pretrained E "hubertsiuzdak/snac_24khz"
       (write_line Stdout "Loading SNAC model..." w) = (Return m0, w1) ->
     module_to E m0 "cpu" w1 = (Return m1, w2) ->
     from_pretrained E' "hubertsiuzdak/snac_24khz"
       (write_line Stdout "Loading SNAC model..." w') = (Return m0', w1') ->
     module_to E' m0' "cpu" w1' = (Return m1', w2') ->
     In (EvExport c g, r) (log (export_model E out (init w)).2) ->
     In (EvExport c' g', r') (log (export_model E' out' (init w')).2) ->
     (map t_data (ex_args c) = map t_data (ex_args c') <->
      vocabulary_draws E (rng w2) 0 70 = vocabulary_draws E' (rng w2') 0 70)) /\
  (forall Audio Weights (E : Env Audio Weights) (out out' : string) (w : World),
     libraries_preserve rng E ->
     (export_model E out (init w)).1 = Return tt ->
     (export_model E out' (export_model E out (init w)).2).1 = Return tt ->
     exists c g c' g',
       export_calls (log (export_model E out' (export_model E out (init w)).2).2)
         = [(c, g); (c', g')] /\
       map t_data (ex_args c) =
         [vocabulary_draws E (rng w) 0 10;
          vocabulary_draws E (rng w) 10 20;
          vocabulary_draws E (rng w) 30 40] /\
       map t_data (ex_args c') =
         [vocabulary_draws E (rng w) 70 10;
          vocabulary_draws E (rng w) 80 20;
          vocabulary_draws E (rng w) 100 40] /\
       (map t_data (ex_args c) = map t_data (ex_args c') <->
        vocabulary_draws E (rng w) 0 70 = vocabulary_draws E (rng w) 70 70) /\
       rng (world (export_model E out' (export_model E out (init w)).2).2)
         = generator_state E 140 (rng w)) /\
  (In (EvExport Demo.call0 true, None)
      (log (export_model Demo.env "snac.onnx" (init Demo.w0)).2) /\
   In (EvExport Demo.call1 true, None)
      (log (export_model Demo.env "snac.onnx" (init Demo.w1)).2) /\
   map t_data (ex_args Demo.call0) <> map t_data (ex_args Demo.call1)) /\
  (exists c g c' g',
     export_calls
       (log (export_model Demo.env "snac.onnx"
               (export_model Demo.env "snac.onnx" (init Demo.w0)).2).2)
       = [(c, g); (c', g')] /\
     map t_data (ex_args c) <> map t_data (ex_args c')).
Proof.
  assert (Hsame_process :
    forall Audio Weights (E : Env Audio Weights) (out out' : string) (w : World),
     libraries_preserve rng E ->
     (export_model E out (init w)).1 = Return tt ->
     (export_model E out' (export_model E out (init w)).2).1 = Return tt ->
     exists c g c' g',
       export_calls (log (export_model E out' (export_model E out (init w)).2).2)
         = [(c, g); (c', g')] /\
       map t_data (ex_args c) =
         [vocabulary_draws E (rng w) 0 10;
          vocabulary_draws E (rng w) 10 20;
          vocabulary_draws E (rng w) 30 40] /\
       map t_data (ex_args c') =
         [vocabulary_draws E (rng w) 70 10;
          vocabulary_draws E (rng w) 80 20;
          vocabulary_draws E (rng w) 100 40] /\
       (map t_data (ex_args c) = map t_data (ex_args c') <->
        vocabulary_draws E (rng w) 0 70 = vocabulary_draws E (rng w) 70 70) /\
       rng (world (export_model E out' (export_model E out (init w)).2).2)
         = generator_state E 140 (rng w)).
  { intros ? ? E out out' w Hp Hr1 Hr2.
    destruct (export_model_generator E out (init w) Hp) as (new1 & Hc1 & Ha1 & Hret1).
    destruct (Hret1 Hr1) as [Hlen1 Hrng1]. clear Hret1.
    destruct (export_model_generator E out' (export_model E out (init w)).2 Hp)
      as (new2 & Hc2 & Ha2 & Hret2).
    destruct (Hret2 Hr2) as [Hlen2 Hrng2]. clear Hret2.
    destruct new1 as [|[c g] [|]]; try discriminate Hlen1.
    destruct new2 as [|[c' g'] [|]]; try discriminate Hlen2.
    apply Forall_inv in Ha1, Ha2. cbn [fst init world] in Ha1, Ha2.
    rewrite Hrng1 in Ha2, Hrng2. cbn [init world] in Ha2, Hrng2.
    assert (Hv : map t_data (ex_args c) =
                 [vocabulary_draws E (rng w) 0 10;
                  vocabulary_draws E (rng w) 10 20;
                  vocabulary_draws E (rng w) 30 40]).
    { rewrite Ha1. apply traced_inputs_values. }
    assert (Hv' : map t_data (ex_args c') =
                  [vocabulary_draws E (rng w) 70 10;
                   vocabulary_draws E (rng w) 80 20;
                   vocabulary_draws E (rng w) 100 40]).
    { rewrite Ha2, traced_inputs_values, !vocabulary_draws_shift. reflexivity. }
    exists c, g, c', g'. split.
    { rewrite Hc2, Hc1. reflexivity. }
    split; [exact Hv|]. split; [exact Hv'|]. split.
    - rewrite Ha1, Ha2, !traced_inputs_values, traced_values_eq_iff.
      now rewrite vocabulary_draws_shift.
    - rewrite Hrng2, <- generator_state_add. reflexivity. }
  split; [|split; [|split; [|split; [exact Hsame_process|split]]]].
  - intros ? ? E E' out out' w w' c c' g g' r r' H H'.
    destruct (export_entry_inv E out w c g r H) as (m0 & w1 & m1 & w2 & _ & _ & -> & _ & _).
    destruct (export_entry_inv E' out' w' c' g' r' H')
      as (m0' & w1' & m1' & w2' & _ & _ & -> & _ & _).
    split; [reflexivity|]. split; [reflexivity|].
    apply traced_inputs_vocabulary.
  - intros ? ? E out w c g r H.
    destruct (export_entry_inv E out w c g r H) as (m0 & w1 & m1 & w2 & Hl & Ht & -> & _ & _).
    exists m0, w1, m1, w2. split; [exact Hl|]. split; [exact Ht|].
    split; [reflexivity|]. apply traced_inputs_values.
  - intros ? ? E E' out out' w w' c c' g g' r r' m0 m1 m0' m1' w1 w2 w1' w2'
           Hl Ht Hl' Ht' H H'.
    destruct (export_entry_inv E out w c g r H) as (n0 & u1 & n1 & u2 & Gl & Gt & -> & _ & _).
    destruct (export_entry_inv E' out' w' c' g' r' H')
      as (n0' & u1' & n1' & u2' & Gl' & Gt' & -> & _ & _).
    rewrite Hl in Gl. injection Gl as <- <-. rewrite Ht in Gt. injection Gt as <- <-.
    rewrite Hl' in Gl'. injection Gl' as <- <-. rewrite Ht' in Gt'. injection Gt' as <- <-.
    cbn [traced_call ex_args]. rewrite !traced_inputs_values.
    apply traced_values_eq_iff.
  - split; [vm_compute; do 8 right; left; reflexivity|].
    split; [vm_compute; do 8 right; left; reflexivity|].
    intros H. vm_compute in H. discriminate H.
  - destruct (Hsame_process (list Z) Z Demo.env "snac.onnx" "snac.onnx" Demo.w0)
      as (c & g & c' & g' & Hcalls & _ & _ & Hiff & _).
    + repeat split; intros ? [? ? ? ? ?]; reflexivity.
    + vm_compute. reflexivity.
    + vm_compute. reflexivity.
    + exists c, g, c', g'. split; [exact Hcalls|].
      intros Heq. apply Hiff in Heq. vm_compute in Heq. discriminate Heq.
Qed.

Lemma traced_values_vary_shapes_fixed_witness :
  (map t_shape (ex_args Demo.call0) = map t_shape (ex_args Demo.call1) /\
   map t_dtype (ex_args Demo.call0) = map t_dtype (ex_args Demo.call1) /\
   Forall in_vocabulary (ex_args Demo.call0)) /\
  (map t_data (ex_args Demo.call0) = map t_data (ex_args Demo.call1) <->
   vocabulary_draws Demo.env 42 0 70 = vocabulary_draws Demo.env 7 0 70).
Proof.
  destruct traced_values_vary_shapes_fixed as (Hsame & _ & Hiff & _).
  split.
  - apply (Hsame (list Z) Z Demo.env Demo.env "snac.onnx" "snac.onnx" Demo.w0 Demo.w1
             Demo.call0 Demo.call1 true true None None);
      vm_compute; do 8 right; left; reflexivity.
  - apply (Hiff (list Z) Z Demo.env Demo.env "snac.onnx" "snac.onnx" Demo.w0 Demo.w1
             Demo.call0 Demo.call1 true true None None
             (mkModel true "cpu" 24000) (mkModel true "cpu" 24000)
             (mkModel true "cpu" 24000) (mkModel true "cpu" 24000)
             (write_line Stdout "Loading SNAC model..." Demo.w0)
             (write_line Stdout "Loading SNAC model..." Demo.w0)
             (write_line Stdout "Loading SNAC model..." Demo.w1)
             (write_line Stdout "Loading SNAC model..." Demo.w1));
      try reflexivity; vm_compute; do 8 right; left; reflexivity.
Defined.

(* ===================================================================== *)
(** * Further properties of the script                                    *)
(* ===================================================================== *)

Section MoreFacts.

Context {Audio Weights : Type}.
Variable E : Env Audio Weights.

(** An import that raises something else than ImportError is not handled. *)
Lemma script_import_other w e :
  import_snac E = Raise e ->
  is_ImportError e = false ->
  script E (init w) = (Raise e, mkState w [(EvImport "snac", Some e)]).
Proof.
  intros Himp Hcls. unfold script.
  rewrite bind_run. unfold try_except, import_SNAC.
  rewrite call_run. cbn [fst snd world log init app]. rewrite Himp, Hcls.
  reflexivity.
Qed.

(** The interpreter's report goes to standard error, line after line. *)
Lemma report_written lines w :
  stderr (fold_left (fun w l => write_line Stderr l w) lines w) = stderr w ++ lines /\
  stdout (fold_left (fun w l => write_line Stderr l w) lines w) = stdout w /\
  fs (fold_left (fun w l => write_line Stderr l w) lines w) = fs w.
Proof.
  revert w. induction lines as [|l lines IH]; intros w; cbn [fold_left].
  - now rewrite app_nil_r.
  - destruct (IH (write_line Stderr l w)) as (-> & -> & ->).
    cbn [write_line stderr stdout fs]. now rewrite <- app_assoc.
Qed.

(** Every statement a run of [export_model] adds to the log is one of its
    own kinds. *)
Lemma export_model_log_events out s en :
  In en (log (export_model E out s).2) ->
  In en (log s) \/ export_model_statement en.1 = true.
Proof.
  destruct (export_model_run E out s) as
    [e1 v1 Hl | m0 v1 e1 v2 Hl Ht | m0 v1 m1 v2 e1 v4 Hl Ht Hx | m0 v1 m1 v2 v4 Hl Ht Hx];
    cbn [snd log]; unfold log_loaded, log_prepared; intros H;
    apply in_app_or in H; destruct H as [H|H]; [now left| |now left| |now left| |now left|];
    right;
    repeat (apply in_app_or in H; destruct H as [H|H]);
    repeat (destruct H as [<-|H]; [reflexivity|]); destruct H.
Qed.

(** When every library call returns, so does [export_model], having run
    all ten statements. *)
Lemma library_success_run out s w4 :
  LibrarySuccess E out (world s) w4 ->
  exists m0 m1 c g,
    export_model E out s =
    (Return tt,
     mkState (write_line Stdout "Export complete." w4)
       (log s ++ log_loaded m0 m1 ++ log_prepared out ++
        [(EvExport c g, None); (EvPrint Stdout "Export complete.", None)])).
Proof.
  intros [n0 u1 n1 u2 u4 Gl Gt Gx].
  destruct (export_model_run E out s) as
    [e1 v1 Hl | m0 v1 e1 v2 Hl Ht | m0 v1 m1 v2 e1 v4 Hl Ht Hx | m0 v1 m1 v2 v4 Hl Ht Hx];
    rewrite Gl in Hl; try discriminate; injection Hl as ? ?; subst;
    rewrite Gt in Ht; try discriminate; injection Ht as ? ?; subst;
    rewrite Gx in Hx; try discriminate; injection Hx as ?; subst.
  eexists _, _, _, _. reflexivity.
Qed.

End MoreFacts.

(** X1. The import guard handles ImportError only.  When the import of snac
    raises any other error, nothing of the script runs after it: no message
    of the script's own, no [sys.exit]; the interpreter reports the
    exception on standard error and the process ends with status 1,
    standard output and the file system untouched. *)
Theorem import_guard_lets_other_errors_through {Audio Weights} (E : Env Audio Weights)
    (w : World) (e : PyExn) :
  import_snac E = Raise e ->
  is_ImportError e = false ->
  is_error e = true ->
  (run_process E w).1 = 1 /\
  log (run_process E w).2 = [(EvImport "snac", Some e)] /\
  stderr (world (run_process E w).2) = stderr w ++ traceback E e /\
  stdout (world (run_process E w).2) = stdout w /\
  fs (world (run_process E w).2) = fs w.
Proof.
  intros Himp Hcls Herr. unfold run_process.
  rewrite (script_import_other E w e Himp Hcls).
  destruct e as [code|cls msg]; [discriminate Herr|].
  cbn [fst snd world log].
  destruct (report_written (traceback E (Exn cls msg)) w) as (-> & -> & ->).
  repeat split.
Qed.

Lemma import_guard_lets_other_errors_through_witness :
  (run_process Demo.env_broken_snac Demo.w0).1 = 1 /\
  log (run_process Demo.env_broken_snac Demo.w0).2 =
    [(EvImport "snac",
      Some (Exn OSError "libsndfile.so: cannot open shared object file"))] /\
  stderr (world (run_process Demo.env_broken_snac Demo.w0).2) =
    stderr Demo.w0 ++
    traceback Demo.env_broken_snac
      (Exn OSError "libsndfile.so: cannot open shared object file") /\
  stdout (world (run_process Demo.env_broken_snac Demo.w0).2) = stdout Demo.w0 /\
  fs (world (run_process Demo.env_broken_snac Demo.w0).2) = fs Demo.w0.
Proof.
  apply (import_guard_lets_other_errors_through Demo.env_broken_snac Demo.w0
           (Exn OSError "libsndfile.so: cannot open shared object file"));
    reflexivity.
Defined.

(** X2. The script prints its "library not found" message, and calls
    [sys.exit(1)], exactly when the import of snac raised an ImportError:
    never after a successful import, whatever happens later, and never for
    another exception. *)
Theorem missing_snac_message_iff_import_error {Audio Weights} (E : Env Audio Weights)
    (w : World) :
  (In (EvPrint Stderr missing_snac_message, None) (log (script E (init w)).2) <->
   exists e, import_snac E = Raise e /\ is_ImportError e = true) /\
  (In (EvExit 1, Some (SystemExit 1)) (log (script E (init w)).2) <->
   exists e, import_snac E = Raise e /\ is_ImportError e = true).
Proof.
  destruct (import_snac E) as [[]|e] eqn:Himp.
  - rewrite (script_import_ok E w Himp).
    split; (split; [intros H|intros (e & He & _); discriminate He]);
      apply export_model_log_events in H; cbn [log fst] in H;
      destruct H as [[H|[]]|H]; discriminate H.
  - destruct (is_ImportError e) eqn:Hcls.
    + rewrite (script_import_fails E w e Himp Hcls). cbn [snd log].
      split; (split; [intros _; exists e; split; [reflexivity|exact Hcls]|intros _]).
      * right. left. reflexivity.
      * do 2 right. left. reflexivity.
    + rewrite (script_import_other E w e Himp Hcls). cbn [snd log].
      split; (split; [intros [H|[]]; discriminate H|]);
        intros (e' & He' & Hc'); injection He' as <-; congruence.
Qed.

(** X3. When snac imports and the three library calls (fetch, move to
    device, export) return, the process ends with exit status 0.  After the
    export call returns the script only prints "Export complete.": the
    world is the one the export call left plus that line, and none of the
    eleven statements executed raised. *)
Theorem successful_run_exits_0 {Audio Weights} (E : Env Audio Weights)
    (w w4 : World) :
  import_snac E = Return tt ->
  LibrarySuccess E "snac.onnx" w w4 ->
  (run_process E w).1 = 0 /\
  world (run_process E w).2 = write_line Stdout "Export complete." w4 /\
  length (log (run_process E w).2) = 11%nat /\
  Forall (fun en => en.2 = None) (log (run_process E w).2).
Proof.
  intros Himp HS. unfold run_process. rewrite (script_import_ok E w Himp).
  destruct (library_success_run E "snac.onnx" (mkState w [(EvImport "snac", None)]) w4 HS)
    as (m0 & m1 & c & g & ->).
  cbn [fst snd world log]. split; [reflexivity|]. split; [reflexivity|].
  split; [reflexivity|].
  unfold log_loaded, log_prepared. cbn [app].
  repeat (constructor; [reflexivity|]). constructor.
Qed.

Lemma successful_run_exits_0_witness :
  (run_process Demo.env Demo.w0).1 = 0 /\
  fs (world (run_process Demo.env Demo.w0).2) !! "snac.onnx" = Some "onnx".
Proof.
  pose proof (successful_run_exits_0 Demo.env Demo.w0
                (Demo.write_file "snac.onnx" "onnx"
                   (world_at_export Demo.env "snac.onnx"
                      (write_line Stdout "Loading SNAC model..." Demo.w0)))) as H.
  destruct H as (Hst & Hw & _).
  - reflexivity.
  - eapply all_return; reflexivity.
  - split; [exact Hst|]. rewrite Hw. reflexivity.
Defined.

Section FrameFacts.

Context {Audio Weights : Type}.
Variable E : Env Audio Weights.

(** A part of the world that neither printing on standard output nor
    drawing random numbers changes is changed by a run only through the
    library calls. *)
Lemma export_model_frame {B} (p : World -> B) out s :
  (forall l w, p (write_line Stdout l w) = p w) ->
  (forall g w, p (set_rng g w) = p w) ->
  libraries_preserve p E ->
  p (world (export_model E out s).2) = p (world s).
Proof.
  intros Hprint Hrng (Hfetch & Hto & Hexp).
  assert (Hat : forall w2, p (world_at_export E out w2) = p w2).
  { intros w2.
    change (world_at_export E out w2)
      with (write_line Stdout ("Exporting to " +:+ out +:+ "...")
              (set_rng (rng_after_inputs E (rng w2)) w2)).
    now rewrite Hprint, Hrng. }
  destruct (export_model_run E out s) as
    [e1 v1 Hl | m0 v1 e1 v2 Hl Ht | m0 v1 m1 v2 e1 v4 Hl Ht Hx | m0 v1 m1 v2 v4 Hl Ht Hx];
    cbn [snd world];
    pose proof (Hfetch "hubertsiuzdak/snac_24khz"
                  (write_line Stdout "Loading SNAC model..." (world s))) as H1;
    rewrite Hl, Hprint in H1; cbn [snd] in H1; try exact H1;
    pose proof (Hto m0 "cpu" v1) as H2; rewrite Ht in H2; cbn [snd] in H2;
    try (now rewrite H2);
    pose proof (Hexp (traced_call E out m1 (rng v2)) (world_at_export E out v2)) as H3;
    rewrite Hx, Hat in H3; cbn [snd] in H3.
  - now rewrite H3, H2.
  - now rewrite Hprint, H3, H2.
Qed.

(** With libraries that print nothing on standard output, the stream grows
    by exactly the lines the script printed. *)
Lemma export_model_stdout out w :
  libraries_preserve stdout E ->
  stdout (world (export_model E out (init w)).2) =
  stdout w ++ printed Stdout (log (export_model E out (init w)).2).
Proof.
  intros (Hfetch & Hto & Hexp).
  destruct (export_model_run E out (init w)) as
    [e1 v1 Hl | m0 v1 e1 v2 Hl Ht | m0 v1 m1 v2 e1 v4 Hl Ht Hx | m0 v1 m1 v2 v4 Hl Ht Hx];
    cbn [snd world log init app] in *;
    pose proof (Hfetch "hubertsiuzdak/snac_24khz"
                  (write_line Stdout "Loading SNAC model..." w)) as H1;
    rewrite Hl in H1; cbn [snd init world write_line stdout] in H1; try exact H1;
    pose proof (Hto m0 "cpu" v1) as H2; rewrite Ht in H2; cbn [snd] in H2;
    try (rewrite H2; exact H1);
    pose proof (Hexp (traced_call E out m1 (rng v2)) (world_at_export E out v2)) as H3;
    rewrite Hx in H3; cbn [snd world_at_export stdout] in H3.
  - rewrite H3, H2, H1, <- app_assoc. reflexivity.
  - cbn [write_line stdout]. rewrite H3, H2, H1, <- !app_assoc. reflexivity.
Qed.

End FrameFacts.

Ltac log_cases H :=
  repeat match type of H with
  | In _ (_ ++ _) => apply in_app_or in H; destruct H as [H|H]
  | In _ (_ :: _) => destruct H as [H|H]
  | In _ [] => destruct H
  end.

Ltac export_runs E out w :=
  let e := fresh "e" in
  let m0 := fresh "m0" in let m1 := fresh "m1" in
  let v1 := fresh "v1" in let v2 := fresh "v2" in let v4 := fresh "v4" in
  let Hl := fresh "Hl" in let Ht := fresh "Ht" in let Hx := fresh "Hx" in
  destruct (export_model_run E out (init w)) as
    [e v1 Hl | m0 v1 e v2 Hl Ht | m0 v1 m1 v2 e v4 Hl Ht Hx | m0 v1 m1 v2 v4 Hl Ht Hx];
  cbn [fst snd log init app]; unfold log_loaded, log_prepared.

Section ExportFacts.

Context {Audio Weights : Type}.
Variable E : Env Audio Weights.

(** The announcement is not the completion message, whatever the path. *)
Lemma announcement_not_completion (out : string) :
  "Exporting to " +:+ out +:+ "..." <> "Export complete.".
Proof. cbn [String.append]. intros H. discriminate H. Qed.

(** What a run has printed on standard output: all three messages if it
    returns, the first or the first two if it raises. *)
Lemma printed_stdout_cases out w :
  ((export_model E out (init w)).1 = Return tt /\
   printed Stdout (log (export_model E out (init w)).2) =
     ["Loading SNAC model..."; "Exporting to " +:+ out +:+ "..."; "Export complete."]) \/
  ((exists e, (export_model E out (init w)).1 = Raise e) /\
   (printed Stdout (log (export_model E out (init w)).2) = ["Loading SNAC model..."] \/
    printed Stdout (log (export_model E out (init w)).2) =
      ["Loading SNAC model..."; "Exporting to " +:+ out +:+ "..."])).
Proof.
  export_runs E out w.
  - right. split; [now exists e|left; reflexivity].
  - right. split; [now exists e|left; reflexivity].
  - right. split; [now exists e|right; reflexivity].
  - left. split; reflexivity.
Qed.

End ExportFacts.

(** X4. [export_model] prints "Export complete." exactly when it returns
    normally: a run in which fetching, moving or exporting raised never
    prints it, whatever the output path. *)
Theorem export_complete_iff_returned {Audio Weights} (E : Env Audio Weights)
    (out : string) (w : World) :
  (export_model E out (init w)).1 = Return tt <->
  In "Export complete." (printed Stdout (log (export_model E out (init w)).2)).
Proof.
  destruct (printed_stdout_cases E out w) as [[Hret ->]|[[e Hraise] [->| ->]]].
  - split; [intros _; do 2 right; left; reflexivity|intros _; exact Hret].
  - rewrite Hraise. split; [discriminate|].
    intros [H|[]]. discriminate H.
  - rewrite Hraise. split; [discriminate|].
    intros [H|[H|[]]]; [discriminate H|].
    exfalso. exact (announcement_not_completion out H).
Qed.

(** X5. When fetching the model or moving it to the device raises, the run
    stops there: the export call is never issued, no dummy tensor is drawn,
    and "Loading SNAC model..." is the only line the script has printed. *)
Theorem load_failure_stops_before_export {Audio Weights} (E : Env Audio Weights)
    (out : string) (w : World) (ev : Event Weights) (e : PyExn) :
  In (ev, Some e) (log (export_model E out (init w)).2) ->
  is_load_call ev = true ->
  (export_model E out (init w)).1 = Raise e /\
  export_calls (log (export_model E out (init w)).2) = [] /\
  printed Stdout (log (export_model E out (init w)).2) = ["Loading SNAC model..."] /\
  (forall lo hi sz dt r,
     ~ In (EvRandint lo hi sz dt, r) (log (export_model E out (init w)).2)).
Proof.
  export_runs E out w; intros H Hev; log_cases H; try discriminate H;
    injection H as <- <-; try discriminate Hev;
    (split; [reflexivity|]); (split; [reflexivity|]); (split; [reflexivity|]);
    intros lo hi sz dt r H; log_cases H; discriminate H.
Qed.

Lemma load_failure_stops_before_export_witness :
  (export_model Demo.env_offline "snac.onnx" (init Demo.w0)).1
    = Raise (Exn OSError "Network is unreachable") /\
  export_calls (log (export_model Demo.env_offline "snac.onnx" (init Demo.w0)).2) = [] /\
  printed Stdout (log (export_model Demo.env_offline "snac.onnx" (init Demo.w0)).2)
    = ["Loading SNAC model..."] /\
  (forall lo hi sz dt r,
     ~ In (EvRandint lo hi sz dt, r)
          (log (export_model Demo.env_offline "snac.onnx" (init Demo.w0)).2)).
Proof.
  apply (load_failure_stops_before_export Demo.env_offline "snac.onnx" Demo.w0
           (EvFromPretrained "hubertsiuzdak/snac_24khz")
           (Exn OSError "Network is unreachable")).
  - vm_compute. right. left. reflexivity.
  - reflexivity.
Defined.

(** X6. With libraries that print nothing on standard output, what a run of
    [export_model] adds to the stream is exactly the lines the script
    printed, in order, also when the run fails; a run that returns adds
    the three progress messages and nothing else. *)
Theorem stdout_is_what_the_script_printed {Audio Weights} (E : Env Audio Weights)
    (out : string) (w : World) :
  libraries_preserve stdout E ->
  stdout (world (export_model E out (init w)).2) =
    stdout w ++ printed Stdout (log (export_model E out (init w)).2) /\
  ((export_model E out (init w)).1 = Return tt ->
   stdout (world (export_model E out (init w)).2) =
     stdout w ++
     ["Loading SNAC model..."; "Exporting to " +:+ out +:+ "..."; "Export complete."]).
Proof.
  intros Hquiet. pose proof (export_model_stdout E out w Hquiet) as Hout.
  split; [exact Hout|]. intros Hret. rewrite Hout.
  destruct (printed_stdout_cases E out w) as [[_ ->]|[[e Hraise] _]]; [reflexivity|].
  rewrite Hraise in Hret. discriminate Hret.
Qed.

Lemma stdout_is_what_the_script_printed_witness :
  stdout (world (export_model Demo.env "snac.onnx" (init Demo.w0)).2) =
    ["Loading SNAC model..."; "Exporting to snac.onnx..."; "Export complete."].
Proof.
  destruct (stdout_is_what_the_script_printed Demo.env "snac.onnx" Demo.w0) as [_ H].
  - repeat split; intros ? [? ? ? ? ?]; reflexivity.
  - apply H. vm_compute. reflexivity.
Defined.

(** X7. [export_model] itself writes no file, prints nothing on standard
    error and does not switch the autograd mode: each of these is changed
    by a run, failing or not, only if a library call changes it. *)
Theorem export_model_touches_only_stdout_and_rng {Audio Weights}
    (E : Env Audio Weights) (out : string) (s : State Weights) :
  (libraries_preserve fs E ->
   fs (world (export_model E out s).2) = fs (world s)) /\
  (libraries_preserve stderr E ->
   stderr (world (export_model E out s).2) = stderr (world s)) /\
  (libraries_preserve grad_enabled E ->
   grad_enabled (world (export_model E out s).2) = grad_enabled (world s)).
Proof.
  repeat split; intros H; apply export_model_frame;
    try exact H; intros ? [? ? ? ? ?]; reflexivity.
Qed.

Lemma export_model_touches_only_stdout_and_rng_witness :
  fs (world (export_model Demo.env_offline "snac.onnx" (init Demo.w0)).2) = fs Demo.w0 /\
  stderr (world (export_model Demo.env "snac.onnx" (init Demo.w0)).2) = stderr Demo.w0 /\
  grad_enabled (world (export_model Demo.env "snac.onnx" (init Demo.w0)).2)
    = grad_enabled Demo.w0.
Proof.
  split; [|split].
  - apply (export_model_touches_only_stdout_and_rng
             Demo.env_offline "snac.onnx" (init Demo.w0)).
    repeat split; intros ? [? ? ? ? ?]; reflexivity.
  - apply (export_model_touches_only_stdout_and_rng Demo.env "snac.onnx" (init Demo.w0)).
    repeat split; intros ? [? ? ? ? ?]; reflexivity.
  - apply (export_model_touches_only_stdout_and_rng Demo.env "snac.onnx" (init Demo.w0)).
    repeat split; intros ? [? ? ? ? ?]; reflexivity.
Defined.

(** X8. The export call is consistent with itself: it passes as many
    example tensors as it names inputs, the input and output names are
    pairwise distinct, and every axis it declares dynamic for an input is
    an axis the example tensor of that input has (the tensors have rank 2,
    the axes are 0 and 1). *)
Theorem dynamic_axes_fit_the_traced_tensors {Audio Weights} (E : Env Audio Weights)
    (out : string) (w : World) (c : ExportCall Weights) (g : bool) (r : option PyExn) :
  In (EvExport c g, r) (log (export_model E out (init w)).2) ->
  length (ex_args c) = length (ex_input_names c) /\
  NoDup (ex_input_names c ++ ex_output_names c) /\
  (forall (i : nat) (name : string) (t : Tensor) (axes : gmap Z string)
          (ax : Z) (label : string),
     ex_input_names c !! i = Some name ->
     ex_args c !! i = Some t ->
     ex_dynamic_axes c !! name = Some axes ->
     axes !! ax = Some label ->
     0 <= ax < Z.of_nat (length (t_shape t))).
Proof.
  intros H.
  destruct (export_entry_inv E out w c g r H) as (m0 & w1 & m1 & w2 & _ & _ & -> & _ & _).
  unfold traced_call, traced_inputs.
  cbn [ex_args ex_input_names ex_output_names ex_dynamic_axes length app].
  split; [reflexivity|]. split.
  { apply (bool_decide_unpack _). vm_compute. exact I. }
  intros i name t axes ax label Hname Harg Haxes Hax.
  assert (Hdom : ax = 0 \/ ax = 1).
  { destruct i as [|[|[|i]]]; cbn in Hname; try discriminate Hname;
      injection Hname as <-;
      (assert (axes = {[ 0 := "batch"; 1 := "time" ]}) as ->
         by (apply (inj Some); rewrite <- Haxes; reflexivity));
      apply (elem_of_dom_2 (D := gset Z)) in Hax;
      rewrite dom_insert_L, dom_singleton_L in Hax; set_solver. }
  destruct i as [|[|[|i]]]; cbn in Harg; try discriminate Harg;
    injection Harg as <-; cbn [randint_tensor t_shape length]; lia.
Qed.

Lemma dynamic_axes_fit_the_traced_tensors_witness :
  length (ex_args Demo.call0) = length (ex_input_names Demo.call0) /\
  NoDup (ex_input_names Demo.call0 ++ ex_output_names Demo.call0) /\
  (forall (i : nat) (name : string) (t : Tensor) (axes : gmap Z string)
          (ax : Z) (label : string),
     ex_input_names Demo.call0 !! i = Some name ->
     ex_args Demo.call0 !! i = Some t ->
     ex_dynamic_axes Demo.call0 !! name = Some axes ->
     axes !! ax = Some label ->
     0 <= ax < Z.of_nat (length (t_shape t))).
Proof.
  apply (dynamic_axes_fit_the_traced_tensors
           Demo.env "snac.onnx" Demo.w0 Demo.call0 true None).
  vm_compute. do 8 right. left. reflexivity.
Defined.

(** X9. The statement just before an export call is the announcement
    "Exporting to <path>..." of the very path the call writes to, and
    nothing before it raised; this holds for the failing export too. *)
Theorem export_is_announced_with_its_path {Audio Weights} (E : Env Audio Weights)
    (out : string) (w : World) (c : ExportCall Weights) (g : bool) (r : option PyExn) :
  In (EvExport c g, r) (log (export_model E out (init w)).2) ->
  exists pre post,
    log (export_model E out (init w)).2 =
      pre ++ [(EvPrint Stdout ("Exporting to " +:+ ex_f c +:+ "..."), None);
              (EvExport c g, r)] ++ post /\
    Forall (fun en => en.2 = None) pre /\
    (post = [] \/ post = [(EvPrint Stdout "Export complete.", None)]).
Proof.
  export_runs E out w; intros H; log_cases H; try discriminate H;
    injection H as <- <- <-.
  - eexists [_; _; _; _; _; _; _], []. split; [reflexivity|].
    split; [|left; reflexivity].
    repeat (constructor; [reflexivity|]). constructor.
  - eexists [_; _; _; _; _; _; _], [_]. split; [reflexivity|].
    split; [|right; reflexivity].
    repeat (constructor; [reflexivity|]). constructor.
Qed.

Lemma export_is_announced_with_its_path_witness :
  exists pre post,
    log (export_model Demo.env_export_fails "snac.onnx" (init Demo.w0)).2 =
      pre ++ [(EvPrint Stdout ("Exporting to " +:+ ex_f Demo.call0 +:+ "..."), None);
              (EvExport Demo.call0 true,
               Some (Exn RuntimeError "Unsupported ONNX opset version"))] ++ post /\
    Forall (fun en => en.2 = None) pre /\
    (post = [] \/ post = [(EvPrint Stdout "Export complete.", None)]).
Proof.
  apply (export_is_announced_with_its_path Demo.env_export_fails "snac.onnx" Demo.w0).
  vm_compute. do 8 right. left. reflexivity.
Defined.

(** X10. The model that reaches the export call is the fetched one: what
    [from_pretrained] returned is what is moved to "cpu", what [to] returned
    is what [eval] is called on, and the wrapper handed to the export call
    holds that module with its weights and device as [to] returned them;
    only the training flag has been cleared. *)
Theorem exported_model_is_the_fetched_one {Audio Weights} (E : Env Audio Weights)
    (out : string) (w : World) (c : ExportCall Weights) (g : bool) (r : option PyExn) :
  In (EvExport c g, r) (log (export_model E out (init w)).2) ->
  exists m0 w1 m1 w2,
    from_pretrained E "hubertsiuzdak/snac_24khz"
      (write_line Stdout "Loading SNAC model..." w) = (Return m0, w1) /\
    module_to E m0 "cpu" w1 = (Return m1, w2) /\
    In (EvTo m0 "cpu", None) (log (export_model E out (init w)).2) /\
    In (EvEval m1, None) (log (export_model E out (init w)).2) /\
    weights (model (ex_model c)) = weights m1 /\
    device (model (ex_model c)) = device m1.
Proof.
  intros H.
  destruct (export_entry_inv E out w c g r H) as (n0 & u1 & n1 & u2 & Gl & Gt & -> & _ & _).
  exists n0, u1, n1, u2. split; [exact Gl|]. split; [exact Gt|].
  assert (Hlog : In (EvTo n0 "cpu", None) (log (export_model E out (init w)).2) /\
                 In (EvEval n1, None) (log (export_model E out (init w)).2)).
  { clear H. export_runs E out w; cbn [init world] in Hl;
      rewrite Gl in Hl; try discriminate Hl; injection Hl as <- <-;
      rewrite Gt in Ht; try discriminate Ht; injection Ht as <- <-;
      split; [do 2 right; left; reflexivity|do 3 right; left; reflexivity
             |do 2 right; left; reflexivity|do 3 right; left; reflexivity]. }
  destruct Hlog as [Hto Heval].
  split; [exact Hto|]. split; [exact Heval|]. split; reflexivity.
Qed.

Lemma exported_model_is_the_fetched_one_witness :
  exists m0 w1 m1 w2,
    from_pretrained Demo.env "hubertsiuzdak/snac_24khz"
      (write_line Stdout "Loading SNAC model..." Demo.w0) = (Return m0, w1) /\
    module_to Demo.env m0 "cpu" w1 = (Return m1, w2) /\
    In (EvTo m0 "cpu", None) (log (export_model Demo.env "snac.onnx" (init Demo.w0)).2) /\
    In (EvEval m1, None) (log (export_model Demo.env "snac.onnx" (init Demo.w0)).2) /\
    weights (model (ex_model Demo.call0)) = weights m1 /\
    device (model (ex_model Demo.call0)) = device m1.
Proof.
  apply (exported_model_is_the_fetched_one
           Demo.env "snac.onnx" Demo.w0 Demo.call0 true None).
  vm_compute. do 8 right. left. reflexivity.
Defined.
